(** * WATER bootstrap pipeline: a shallow embedding and its properties

    The development follows the three Python modules of the pipeline and
    the connectivity script:
    - [water/dicom/orthanc_client.py]  (module [OrthancClient]),
    - [water/dicom/tcia_client.py]     (module [TCIAClient]),
    - [water/dicom/bootstrap_data.py]  (module [Bootstrap]),
    - [scripts/verify_orthanc.py]      (module [VerifyOrthanc]).

    Python code that performs I/O is written in a state-and-exception monad
    [M]: the state is the observable world (requests issued so far, a
    chronological trace of events, the staging file system), and a raised
    exception leaves the state as it was at the raise, as in Python.  The
    remote services and the decoding libraries (JSON, ZIP) are an explicit
    [environment] that every function receives. *)

From Stdlib Require Import ZArith QArith Lia List Ascii String.
From stdpp Require Import base gmap strings list.

Local Open Scope string_scope.

(** ** Python values and exceptions *)

(** The values of the JSON objects the Orthanc service returns
    ([dict[str, Any]] in the source), restricted to the JSON scalars other
    than fractions. *)
Inductive pyval :=
| PyNone
| PyBool (b : bool)
| PyInt (n : Z)
| PyStr (s : string).

(** [v == s] for a string literal [s]. *)
Definition py_eq_str (v : pyval) (s : string) : bool :=
  match v with
  | PyStr t => bool_decide (t = s)
  | _ => false
  end.

(** The exception classes the pipeline can meet.  The first four are the
    [httpx.HTTPError] family ([OtherHTTPError] stands for its members other
    than [ConnectError], the [TimeoutException]s and [HTTPStatusError];
    [TooManyRedirects] is one of them).
    [JSONDecodeError] is a [ValueError] of the [json] module.
    [OverflowError] is what the division of two integers raises when the
    quotient is beyond the floats.
    [FileNotFoundError] and [IsADirectoryError] are the two [OSError]s of
    opening a file for writing that the pipeline can provoke by itself.
    [ArchiveReadError] stands for what [ZipFile.read] raises besides
    [BadZipFile]: [RuntimeError] for an encrypted member,
    [NotImplementedError] for an unsupported compression method.
    [SystemExit] is what [sys.exit] raises and is the only one outside
    [Exception]. *)
Inductive exn :=
| ConnectError
| TimeoutException
| OtherHTTPError
| HTTPStatusError (status : Z)
| JSONDecodeError
| ValueError
| TypeError
| OverflowError
| FileNotFoundError
| IsADirectoryError
| BadZipFile
| ArchiveReadError
| SystemExit (code : Z).

(** [isinstance(e, httpx.HTTPError)] *)
Definition is_HTTPError (e : exn) : bool :=
  match e with
  | ConnectError | TimeoutException | OtherHTTPError | HTTPStatusError _ => true
  | _ => false
  end.

(** [isinstance(e, Exception)] *)
Definition is_Exception (e : exn) : bool :=
  match e with
  | SystemExit _ => false
  | _ => true
  end.

(** [isinstance(e, (httpx.ConnectError, httpx.TimeoutException))] *)
Definition is_connect_or_timeout (e : exn) : bool :=
  match e with
  | ConnectError | TimeoutException => true
  | _ => false
  end.

(** ** Paths ([pathlib.PurePosixPath]) *)

(** A path is the tuple pathlib calls [parts]. *)
Definition path := list string.

Fixpoint split_on (c : ascii) (s : string) : list string :=
  match s with
  | EmptyString => [EmptyString]
  | String a s' =>
      if Ascii.eqb a c then EmptyString :: split_on c s'
      else match split_on c s' with
           | x :: r => String a x :: r
           | [] => [String a EmptyString]
           end
  end.

Definition proper_component (x : string) : bool :=
  negb (String.eqb x "") && negb (String.eqb x ".").

(** The components of a path string: empty and ["."] segments vanish. *)
Definition segments (s : string) : list string :=
  List.filter proper_component (split_on "/"%char s).

Fixpoint leading_slashes (s : string) : nat :=
  match s with
  | String a s' => if Ascii.eqb a "/"%char then S (leading_slashes s') else 0
  | EmptyString => 0
  end.

(** The root of a POSIX path: exactly two slashes are kept as ["//"]. *)
Definition path_root (s : string) : list string :=
  match leading_slashes s with
  | 0 => []
  | 2 => ["//"]
  | _ => ["/"]
  end.

(** [Path(s).parts] *)
Definition Path (s : string) : path := (path_root s ++ segments s)%list.

Definition is_root (x : string) : bool :=
  String.eqb x "/" || String.eqb x "//".

(** [p.name]: the last component, the root excluded. *)
Definition path_name (p : path) : string :=
  match last p with
  | Some x => if is_root x then "" else x
  | None => ""
  end.

(** [p / s] for a string [s]: an absolute [s] replaces [p]. *)
Definition path_join (p : path) (s : string) : path :=
  match path_root s with
  | [] => (p ++ segments s)%list
  | _ => Path s
  end.

(** [p.parent]: the parent of a root, and of the empty path, is the path
    itself. *)
Definition path_parent (p : path) : path :=
  match p with
  | [x] => if is_root x then p else []
  | _ => removelast p
  end.

(** The directory above [d], for a [d] in which every [..] has been
    followed already: above the working directory the path is made of [..]
    only, and the root is above itself. *)
Definition above (d : path) : path :=
  match last d with
  | None => [".."]
  | Some y =>
      if is_root y then d
      else if String.eqb y ".." then (d ++ [".."])%list
      else removelast d
  end.

(** One component further from the directory [d], the way the system
    follows a path; symbolic links are not modelled. *)
Definition step (d : path) (x : string) : path :=
  if is_root x then [x]
  else if String.eqb x ".." then above d
  else (d ++ [x])%list.

(** The directories the system goes through when it follows [p] from the
    directory [d], the one [p] leads to included. *)
Fixpoint steps (d : path) (p : path) : list path :=
  match p with
  | [] => []
  | x :: rest => step d x :: steps (step d x) rest
  end.

(** Directories that are there whatever the run does: the working
    directory, the directories above it, the root. *)
Definition always_exists (d : path) : bool :=
  forallb (fun x => is_root x || String.eqb x "..") d.

(** A path that names a directory by its form alone: the empty path, a
    root, a path that ends in [..]. *)
Definition names_directory (p : path) : bool :=
  match last p with
  | None => true
  | Some x => is_root x || String.eqb x ".."
  end.

(** [s.endswith("/")] *)
Fixpoint endswith_slash (s : string) : bool :=
  match s with
  | EmptyString => false
  | String a EmptyString => Ascii.eqb a "/"%char
  | String _ s' => endswith_slash s'
  end.

(** ** The outside world *)

Definition bytes := list Byte.byte.

(** The requests of the pipeline.  [GetLocation url] is the request a
    client makes by itself when it follows a redirect to [url]. *)
Inductive request :=
| GetSystem
| GetStatistics
| PostInstances (dicom_bytes : bytes)
| GetSeries (collection : string)
| GetImage (series_instance_uid : string)
| GetLocation (url : string).

Record response := { status_code : Z; content : bytes }.

(** What the transport does with a request: it fails below HTTP, or a
    response arrives; [NetRedirect r location] is a response [r] that carries
    the header [Location: location], [NetReply r] one that carries no such
    header. *)
Inductive net_failure := Refused | TimedOut | Broken.

Inductive http_outcome :=
| NetFail (f : net_failure)
| NetReply (r : response)
| NetRedirect (r : response) (location : string).

Definition exn_of_failure (f : net_failure) : exn :=
  match f with
  | Refused => ConnectError
  | TimedOut => TimeoutException
  | Broken => OtherHTTPError
  end.

(** What [zf.read(member)] can do. *)
Inductive zip_read :=
| ReadData (data : bytes)
| ReadBadZip
| ReadUnsupported.

(** An opened [zipfile.ZipFile]: its [namelist()] and its [read]. *)
Record archive := { namelist : list string; zread : string -> zip_read }.

(** The environment: the remote services, answering the [n]-th request of
    the run (a request made to follow a redirect counts as one), and the
    decoders of the standard library.  A decoder returns
    [None] where the Python one raises.  The two JSON decoders are
    [resp.json()] at the return types the client methods are annotated
    with: an object for the Orthanc methods, a list of objects for
    [get_series].  The fields of a series entry are taken as text:
    [SeriesInstanceUID] is passed on as the [str] that [download_series]
    expects, the others are only displayed. *)
Record environment := {
  net : nat -> request -> http_outcome;
  json_object : bytes -> option (gmap string pyval);
  json_series : bytes -> option (list (gmap string string));
  zip_open : bytes -> option archive;
  int_of_str : string -> option Z
}.

Inductive conn := OrthancConn | TciaConn | DownloadConn.

Inductive level := DEBUG | INFO | WARNING | ERROR.

Inductive event :=
| EvOpen (c : conn)
| EvClose (c : conn)
| EvRequest (r : request)
| EvSleep (seconds : Q)
| EvLog (lvl : level) (msg : string)
| EvPoll (alive : bool)
| EvMkdir (p : path)
| EvWrite (p : path).

(** The observable world.  [nreq] counts the requests that have been
    answered, those made to follow a redirect included; the trace holds what
    the program does, an [EvRequest] for each call of [get] or [post] on a
    client; [fs] holds the files of the staging area. *)
Record world := {
  nreq : nat;
  trace : list event;
  fs : gmap path bytes
}.

(** ** The monad of Python statements *)

Inductive outcome (A : Type) :=
| Returned (a : A)
| Raised (e : exn).
Arguments Returned {A} a.
Arguments Raised {A} e.

Definition M (A : Type) : Type := world -> outcome A * world.

Definition ret {A} (a : A) : M A := fun w => (Returned a, w).

Definition raise {A} (e : exn) : M A := fun w => (Raised e, w).

Definition bind {A B} (m : M A) (k : A -> M B) : M B :=
  fun w =>
    match m w with
    | (Returned a, w') => k a w'
    | (Raised e, w') => (Raised e, w')
    end.

Declare Scope py_scope.
Delimit Scope py_scope with py.
Notation "x <- c1 ;; c2" := (bind c1 (fun x => c2))
  (at level 100, c1 at next level, c2 at level 200, right associativity) : py_scope.
Notation "c1 ;; c2" := (bind c1 (fun _ => c2))
  (at level 100, c2 at level 200, right associativity) : py_scope.
Local Open Scope py_scope.

(** [try: body  except <classes>: handler] *)
Definition try_except {A} (body : M A) (catches : exn -> bool)
    (handler : exn -> M A) : M A :=
  fun w =>
    match body w with
    | (Returned a, w') => (Returned a, w')
    | (Raised e, w') => if catches e then handler e w' else (Raised e, w')
    end.

(** [try: body  finally: cleanup] (also the exit of a [with] block) *)
Definition try_finally {A} (body : M A) (cleanup : M unit) : M A :=
  fun w =>
    match body w with
    | (Returned a, w') =>
        match cleanup w' with
        | (Returned _, w'') => (Returned a, w'')
        | (Raised e, w'') => (Raised e, w'')
        end
    | (Raised e, w') =>
        match cleanup w' with
        | (Returned _, w'') => (Raised e, w'')
        | (Raised e', w'') => (Raised e', w'')
        end
    end.

Definition emit (ev : event) : M unit :=
  fun w => (Returned tt, {| nreq := nreq w; trace := (trace w ++ [ev])%list; fs := fs w |}).

Definition log (lvl : level) (msg : string) : M unit := emit (EvLog lvl msg).

(** [sys.exit(code)] *)
Definition sys_exit {A} (code : Z) : M A := raise (SystemExit code).

(** [time.sleep(seconds)] rejects a negative duration. *)
Definition sleep (seconds : Q) : M unit :=
  if Qle_bool 0 seconds then emit (EvSleep seconds) else raise ValueError.

(** [for x in xs: body x], threading an accumulator. *)
Fixpoint for_each {A S} (xs : list A) (body : S -> A -> M S) (acc : S) : M S :=
  match xs with
  | [] => ret acc
  | x :: rest => acc' <- body acc x ;; for_each rest body acc'
  end.

(** ** Library calls: httpx, pathlib I/O, tenacity *)

(** One request on an [httpx.Client] built without [follow_redirects]: the
    environment answers the request according to its position in the run,
    and a response is handed to the caller as it is, whatever its status
    and headers. *)
Definition send (E : environment) (r : request) : M response :=
  fun w =>
    let w' := {| nreq := S (nreq w); trace := (trace w ++ [EvRequest r])%list; fs := fs w |} in
    match net E (nreq w) r with
    | NetFail f => (Raised (exn_of_failure f), w')
    | NetReply resp | NetRedirect resp _ => (Returned resp, w')
    end.

(** [resp.has_redirect_location], for a response that carries a [Location]
    header. *)
Definition redirect_status (resp : response) : bool :=
  existsb (Z.eqb (status_code resp)) [301; 302; 303; 307; 308]%Z.

(** [max_redirects] of an [httpx.Client]. *)
Definition max_redirects : nat := 20.

(** What a client built with [follow_redirects=True] makes of the answer
    to a request: a redirect is followed by a [GET] of its location, at
    most [redirects_left] times; one redirect more raises
    [TooManyRedirects]. *)
Fixpoint follow (E : environment) (redirects_left : nat) (answer : http_outcome)
    : M response :=
  match answer with
  | NetFail f => raise (exn_of_failure f)
  | NetReply resp => ret resp
  | NetRedirect resp location =>
      if redirect_status resp then
        match redirects_left with
        | 0 => raise OtherHTTPError
        | S n =>
            fun w =>
              follow E n (net E (nreq w) (GetLocation location))
                {| nreq := S (nreq w); trace := trace w; fs := fs w |}
        end
      else ret resp
  end.

(** One [get] on an [httpx.Client] built with [follow_redirects=True]. *)
Definition send_following (E : environment) (r : request) : M response :=
  fun w =>
    follow E max_redirects (net E (nreq w) r)
      {| nreq := S (nreq w); trace := (trace w ++ [EvRequest r])%list; fs := fs w |}.

(** [resp.is_success] *)
Definition status_2xx (resp : response) : bool :=
  (200 <=? status_code resp)%Z && (status_code resp <=? 299)%Z.

(** [resp.raise_for_status()]: anything but 2xx raises. *)
Definition raise_for_status (resp : response) : M unit :=
  if status_2xx resp then ret tt
  else raise (HTTPStatusError (status_code resp)).

(** [resp.json()], with the decoder for the annotated return type. *)
Definition resp_json {A} (decode : bytes -> option A) (resp : response) : M A :=
  match decode (content resp) with
  | Some v => ret v
  | None => raise JSONDecodeError
  end.

(** [p.mkdir(parents=True, exist_ok=True)]: the directory and every
    directory on the way to it exist afterwards; the staging area is
    writable. *)
Definition mkdir (p : path) : M unit := emit (EvMkdir p).

(** The directories a trace creates, in order. *)
Fixpoint mkdirs_of (t : list event) : list path :=
  match t with
  | [] => []
  | EvMkdir p :: rest => p :: mkdirs_of rest
  | _ :: rest => mkdirs_of rest
  end.

(** The directories of the trace [t]: those a [mkdir] has created, with
    the directories on the way to them. *)
Fixpoint created_dirs (t : list event) : list path :=
  match t with
  | [] => []
  | EvMkdir p :: rest => (steps [] p ++ created_dirs rest)%list
  | _ :: rest => created_dirs rest
  end.

(** The directories that hold the files [files], directly or not. *)
Definition file_dirs (files : gmap path bytes) : list path :=
  concat (List.map (fun entry => steps [] (path_parent (fst entry))) (map_to_list files)).

(** The directories of the staging area in [w]: those that are always
    there, those the run has created and those that hold a file. *)
Definition is_dir (w : world) (d : path) : bool :=
  always_exists d
  || bool_decide (d ∈ created_dirs (trace w))
  || bool_decide (d ∈ file_dirs (fs w)).

(** The directory the last [mkdir] of the run has made: the directory of
    the series, whenever the source writes a file. *)
Definition made_last (w : world) : option path := last (mkdirs_of (trace w)).

(** [p.write_bytes(data)]: creates or overwrites the file.  It raises
    [FileNotFoundError] when a directory on the way to [p] does not exist,
    and [IsADirectoryError] when [p] is a directory: by its form, or
    because it is the directory the run has made last.  The staging area
    is writable, and no other directory of it sits where the run writes a
    file. *)
Definition write_bytes (p : path) (data : bytes) : M unit :=
  fun w =>
    if negb (forallb (is_dir w) (steps [] (path_parent p))) then
      (Raised FileNotFoundError, w)
    else if names_directory p || bool_decide (made_last w = Some p) then
      (Raised IsADirectoryError, w)
    else
      (Returned tt,
       {| nreq := nreq w; trace := (trace w ++ [EvWrite p])%list; fs := <[p := data]> (fs w) |}).

(** [p.read_bytes()] *)
Definition read_bytes (p : path) : M bytes :=
  fun w =>
    match fs w !! p with
    | Some data => (Returned data, w)
    | None => (Raised FileNotFoundError, w)
    end.

(** [tenacity.wait_exponential(multiplier, min, max)] at an attempt number
    (counted from 1): [multiplier * 2 ** (attempt - 1)] clamped to the
    window. *)
Definition wait_exponential (multiplier min max : Z) (attempt_number : nat) : Z :=
  Z.max (Z.max 0 min) (Z.min (multiplier * 2 ^ Z.of_nat (attempt_number - 1)) max).

(** The loop of [tenacity.retry(retry=..., stop=stop_after_attempt(n),
    wait=..., reraise=True)].  [attempts_left] is [n - attempt_number]: when
    it is zero the stop condition holds and the last exception is raised
    again as it is.  An exception the predicate rejects is never retried. *)
Fixpoint retry_loop {A} (retry_if : exn -> bool) (wait : nat -> Z)
    (attempts_left attempt_number : nat) (f : M A) : M A :=
  try_except f (fun _ => true)
    (fun e =>
       if retry_if e then
         match attempts_left with
         | 0 => raise e
         | S remaining =>
             sleep (inject_Z (wait attempt_number)) ;;
             retry_loop retry_if wait remaining (S attempt_number) f
         end
       else raise e).

Definition retry {A} (retry_if : exn -> bool) (stop_after_attempt : nat)
    (wait : nat -> Z) (f : M A) : M A :=
  retry_loop retry_if wait (stop_after_attempt - 1) 1 f.

(** [range(a, b)] *)
Definition py_range (a b : Z) : list Z :=
  List.map (fun i => (a + Z.of_nat i)%Z) (seq 0 (Z.to_nat (b - a))).

(** [xs[:n]] for an integer [n] of either sign. *)
Definition py_slice_to {A} (xs : list A) (n : Z) : list A :=
  if (0 <=? n)%Z then take (Z.to_nat n) xs
  else take (length xs - Z.to_nat (- n)) xs.

(** ** orthanc_client.py *)

Module OrthancClient.
Section Client.
Context (E : environment).

(** [OrthancClient(...)]: the constructor opens the connection pool; the
    client does not follow redirects. *)
Definition init : M unit := emit (EvOpen OrthancConn).

Definition close : M unit := emit (EvClose OrthancConn).

Definition get_system_info : M (gmap string pyval) :=
  resp <- send E GetSystem ;;
  raise_for_status resp ;;
  resp_json (json_object E) resp.

Definition is_alive : M bool :=
  try_except
    (get_system_info ;; ret true)
    is_HTTPError
    (fun _ => ret false).

Definition get_statistics : M (gmap string pyval) :=
  resp <- send E GetStatistics ;;
  raise_for_status resp ;;
  resp_json (json_object E) resp.

(** The undecorated body of [upload_dicom]. *)
Definition upload_dicom_once (dicom_bytes : bytes) : M (gmap string pyval) :=
  resp <- send E (PostInstances dicom_bytes) ;;
  raise_for_status resp ;;
  resp_json (json_object E) resp.

Definition upload_dicom (dicom_bytes : bytes) : M (gmap string pyval) :=
  retry is_connect_or_timeout 3 (wait_exponential 1 2 10)
    (upload_dicom_once dicom_bytes).

Definition upload_dicom_file (p : path) : M (gmap string pyval) :=
  data <- read_bytes p ;;
  result <- upload_dicom data ;;
  log DEBUG "Uploaded %s -> %s" ;;
  ret result.

End Client.
End OrthancClient.

(** ** tcia_client.py *)

Module TCIAClient.
Section Client.
Context (E : environment).

(** [TCIAClient()]: the client, and the one [download_series] builds for
    each attempt, follow redirects. *)
Definition init : M unit := emit (EvOpen TciaConn).

Definition close : M unit := emit (EvClose TciaConn).

Definition get_series (collection : string) : M (list (gmap string string)) :=
  resp <- send_following E (GetSeries collection) ;;
  raise_for_status resp ;;
  resp_json (json_series E) resp.

(** The body of [for member in zf.namelist()]. *)
Definition extract_member (zf : archive) (series_dir : path)
    (extracted_files : list path) (member : string) : M (list path) :=
  if endswith_slash member then ret extracted_files
  else
    let target := path_join series_dir (path_name (Path member)) in
    data <- match zread zf member with
            | ReadData d => ret d
            | ReadBadZip => raise BadZipFile
            | ReadUnsupported => raise ArchiveReadError
            end ;;
    write_bytes target data ;;
    ret (extracted_files ++ [target])%list.

(** The [try] block: open the archive and extract member by member.  A
    raise leaves the members appended so far in the list, which is why the
    list is threaded through the state of the loop and handed to the
    handler. *)
Fixpoint extract_all (zf : archive) (series_dir : path)
    (members : list string) (extracted_files : list path)
    : world -> (outcome unit * list path) * world :=
  fun w =>
    match members with
    | [] => ((Returned tt, extracted_files), w)
    | member :: rest =>
        match extract_member zf series_dir extracted_files member w with
        | (Returned files, w') => extract_all zf series_dir rest files w'
        | (Raised e, w') => ((Raised e, extracted_files), w')
        end
    end.

(** The [except zipfile.BadZipFile] handler: the whole payload is saved
    as one file and appended to whatever the list already holds. *)
Definition save_single (series_instance_uid : string) (series_dir : path)
    (resp : response) (extracted_files : list path) : M (list path) :=
  log WARNING "Response was not a ZIP; saving as single DICOM file." ;;
  let single := path_join series_dir (series_instance_uid ++ ".dcm") in
  write_bytes single (content resp) ;;
  ret (extracted_files ++ [single])%list.

(** The [try ... except zipfile.BadZipFile] statement. *)
Definition extract_or_fallback (series_instance_uid : string)
    (series_dir : path) (resp : response) : M (list path) :=
  fun w =>
    match zip_open E (content resp) with
    | None => save_single series_instance_uid series_dir resp [] w
    | Some zf =>
        match extract_all zf series_dir (namelist zf) [] w with
        | ((Returned _, files), w') => (Returned files, w')
        | ((Raised BadZipFile, files), w') =>
            save_single series_instance_uid series_dir resp files w'
        | ((Raised e, _), w') => (Raised e, w')
        end
    end.

(** The undecorated body of [download_series]. *)
Definition download_series_once (series_instance_uid : string)
    (output_dir : path) : M (list path) :=
  log INFO "Downloading series %s" ;;
  resp <- (emit (EvOpen DownloadConn) ;;
           try_finally
             (resp <- send_following E (GetImage series_instance_uid) ;;
              raise_for_status resp ;;
              ret resp)
             (emit (EvClose DownloadConn))) ;;
  let series_dir := path_join output_dir series_instance_uid in
  mkdir series_dir ;;
  extracted_files <- extract_or_fallback series_instance_uid series_dir resp ;;
  log INFO "Extracted %d file(s) for series %s -> %s" ;;
  ret extracted_files.

Definition download_series (series_instance_uid : string)
    (output_dir : path) : M (list path) :=
  retry is_connect_or_timeout 3 (wait_exponential 2 4 30)
    (download_series_once series_instance_uid output_dir).

End Client.
End TCIAClient.

(** ** bootstrap_data.py *)

(** The dictionary [{"uploaded": 0, "already_stored": 0, "failed": 0}]: its
    three keys are fixed, so it is a record of three integers. *)
Record UploadStats := {
  uploaded : Z;
  already_stored : Z;
  failed : Z
}.

Definition stats_total (stats : UploadStats) : Z :=
  (uploaded stats + already_stored stats + failed stats)%Z.

(** No counter of [a] exceeds the same counter of [b]. *)
Definition stats_le (a b : UploadStats) : Prop :=
  (uploaded a <= uploaded b)%Z /\
  (already_stored a <= already_stored b)%Z /\
  (failed a <= failed b)%Z.

(** [stats["uploaded"] += 1] and its two siblings. *)
Definition incr_uploaded (stats : UploadStats) : UploadStats :=
  {| uploaded := uploaded stats + 1;
     already_stored := already_stored stats;
     failed := failed stats |}.

Definition incr_already_stored (stats : UploadStats) : UploadStats :=
  {| uploaded := uploaded stats;
     already_stored := already_stored stats + 1;
     failed := failed stats |}.

Definition incr_failed (stats : UploadStats) : UploadStats :=
  {| uploaded := uploaded stats;
     already_stored := already_stored stats;
     failed := failed stats + 1 |}.

(** The first number beyond the floats: an integer from there on has no
    float. *)
Definition float_limit : Z := 2 ^ 1024 - 2 ^ 970.

Module Bootstrap.
Section Pipeline.
Context (E : environment).

(** The [for attempt in range(1, max_retries + 1)] loop followed by the
    statements after it.  [EvPoll] is a ghost event: it records what each
    call of [is_alive] returned, so that the polls can be counted. *)
Fixpoint poll_loop (delay : Q) (attempts : list Z) : M unit :=
  match attempts with
  | [] =>
      log ERROR "Orthanc did not become available after %d attempts." ;;
      sys_exit 1
  | _ :: rest =>
      alive <- OrthancClient.is_alive E ;;
      emit (EvPoll alive) ;;
      if alive then
        info <- OrthancClient.get_system_info E ;;
        log INFO "Orthanc is ready - version %s, DICOM AET: %s" ;;
        ret tt
      else
        log WARNING "Orthanc not reachable (attempt %d/%d), retrying in %.0fs" ;;
        sleep delay ;;
        poll_loop delay rest
  end.

Definition _wait_for_orthanc (max_retries : Z) (delay : Q) : M unit :=
  poll_loop delay (py_range 1 (max_retries + 1)).

Definition stats0 : UploadStats :=
  {| uploaded := 0; already_stored := 0; failed := 0 |}.

(** The body of [for path in dicom_files]. *)
Definition push_file (stats : UploadStats) (p : path) : M UploadStats :=
  try_except
    (result <- OrthancClient.upload_dicom_file E p ;;
     let status := default (PyStr "") (result !! "Status") in
     if py_eq_str status "AlreadyStored" then ret (incr_already_stored stats)
     else ret (incr_uploaded stats))
    is_Exception
    (fun _ =>
       log ERROR "Failed to upload %s" ;;
       ret (incr_failed stats)).

Definition _push_files_to_orthanc (dicom_files : list path) : M UploadStats :=
  for_each dicom_files push_file stats0.

(** [int(v)] *)
Definition py_int (v : pyval) : M Z :=
  match v with
  | PyInt n => ret n
  | PyBool b => ret (if b then 1 else 0)%Z
  | PyStr s => match int_of_str E s with
               | Some n => ret n
               | None => raise ValueError
               end
  | PyNone => raise TypeError
  end.

(** [a / b] for integers [a] and [b > 0]: the float nearest to the
    quotient, and [OverflowError] when that is beyond the largest float,
    which is the case from [2 ** 1024 - 2 ** 970] on.  The value is only
    displayed, and the exact quotient stands for it. *)
Definition py_truediv (a b : Z) : M Q :=
  if (float_limit * b <=? Z.abs a)%Z then raise OverflowError
  else ret (a # Z.to_pos b)%Q.

(** Only the calls that can fail are kept; the table itself is display. *)
Definition _print_summary (upload_stats : UploadStats) : M unit :=
  server_stats <- OrthancClient.get_statistics E ;;
  disk_bytes <- py_int (default (PyInt 0) (server_stats !! "TotalDiskSize")) ;;
  disk_mb <- py_truediv disk_bytes (1024 ^ 2) ;;
  ret tt.

(** The body of [for idx, series_meta in enumerate(selected, 1)]. *)
Definition download_selected (download_dir : path)
    (all_dicom_files : list path) (series_meta : gmap string string)
    : M (list path) :=
  let uid := default "" (series_meta !! "SeriesInstanceUID") in
  if bool_decide (uid = "") then
    log WARNING "Series entry %d has no SeriesInstanceUID - skipping." ;;
    ret all_dicom_files
  else
    try_except
      (files <- TCIAClient.download_series E uid download_dir ;;
       ret (all_dicom_files ++ files)%list)
      is_Exception
      (fun _ =>
         log ERROR "Failed to download series %s" ;;
         ret all_dicom_files).

(** [run] is written in three parts, along the comments of the source
    ("Step 1", "Step 2", "Step 3", "Summary"): [run_upload] is the text
    from the last [logger.info] on, [run_download] the text from the
    [logger.info] that follows the discovery on. *)
Definition run_upload (all_dicom_files : list path) : M unit :=
  log INFO "Downloaded %d DICOM file(s) total." ;;
  (* Step 3 *)
  upload_stats <- _push_files_to_orthanc all_dicom_files ;;
  (* Summary *)
  _print_summary upload_stats ;;
  OrthancClient.close ;;
  ret tt.

Definition run_download (max_series : Z) (download_dir : path)
    (series_list : list (gmap string string)) : M unit :=
  log INFO "Found %d series in collection '%s'. Downloading up to %d." ;;
  let selected := py_slice_to series_list max_series in
  all_dicom_files <- for_each selected (download_selected download_dir) [] ;;
  TCIAClient.close ;;
  match all_dicom_files with
  | [] =>
      log ERROR "No DICOM files were downloaded. Aborting upload." ;;
      sys_exit 1
  | _ => run_upload all_dicom_files
  end.

Definition run (collection : string) (max_series : Z) (download_dir : path)
    : M unit :=
  mkdir download_dir ;;
  (* Step 1 *)
  OrthancClient.init ;;
  _wait_for_orthanc 12 5 ;;
  (* Step 2 *)
  TCIAClient.init ;;
  series_list <-
    try_except (TCIAClient.get_series E collection) is_Exception
      (fun _ =>
         log ERROR "Failed to query TCIA for collection '%s'" ;;
         sys_exit 1) ;;
  match series_list with
  | [] =>
      log ERROR "No series found for collection '%s'. Check the collection name." ;;
      sys_exit 1
  | _ => run_download max_series download_dir series_list
  end.

End Pipeline.
End Bootstrap.

(** ** Vocabulary of the statements *)

(** [m] can only raise exceptions satisfying [P]. *)
Definition raises_only {A} (P : exn -> Prop) (m : M A) : Prop :=
  forall w e w', m w = (Raised e, w') -> P e.



(** A world in which [n] requests have been issued and nothing else has
    been observed. *)
Definition fresh_world (n : nat) : world :=
  {| nreq := n; trace := []; fs := ∅ |}.

Definition after_request (w : world) (r : request) : world :=
  {| nreq := S (nreq w); trace := (trace w ++ [EvRequest r])%list; fs := fs w |}.

(** What [is_alive()] and [get_system_info()] do when their request is the
    [n]-th of the run. *)
Definition alive_at (E : environment) (n : nat) : outcome bool :=
  fst (OrthancClient.is_alive E (fresh_world n)).

Definition system_info_at (E : environment) (n : nat) : outcome (gmap string pyval) :=
  fst (OrthancClient.get_system_info E (fresh_world n)).

(** The results of the polls, and the sleeps, in the order of the trace. *)
Fixpoint polls_of (t : list event) : list bool :=
  match t with
  | [] => []
  | EvPoll b :: rest => b :: polls_of rest
  | _ :: rest => polls_of rest
  end.

Fixpoint sleeps_of (t : list event) : list Q :=
  match t with
  | [] => []
  | EvSleep d :: rest => d :: sleeps_of rest
  | _ :: rest => sleeps_of rest
  end.


(** Sample environments. *)

Definition ok_response : response := {| status_code := 200; content := [] |}.

Definition no_decoders (answers : nat -> request -> http_outcome) : environment :=
  {| net := answers;
     json_object := fun _ => None;
     json_series := fun _ => None;
     zip_open := fun _ => None;
     int_of_str := fun _ => None |}.

(** Something answers 200 on every request, but never with JSON. *)
Definition E_not_json : environment :=
  no_decoders (fun _ _ => NetReply ok_response).

(** Nothing listens: every request is refused. *)
Definition E_refused : environment :=
  no_decoders (fun _ _ => NetFail Refused).


(** Orthanc answers the first request and refuses every later one. *)
Definition E_up_once : environment :=
  {| net := fun n _ => if Nat.leb n 0 then NetReply ok_response else NetFail Refused;
     json_object := fun _ => Some ∅;
     json_series := fun _ => None;
     zip_open := fun _ => None;
     int_of_str := fun _ => None |}.

(** The requests of a trace, in order. *)
Fixpoint requests_of (t : list event) : list request :=
  match t with
  | [] => []
  | EvRequest r :: rest => r :: requests_of rest
  | _ :: rest => requests_of rest
  end.

Definition after_events (w : world) (evs : list event) : world :=
  {| nreq := nreq w; trace := (trace w ++ evs)%list; fs := fs w |}.

(** The attempts of a retried call that failed and were followed by another
    attempt: starting in [w] with attempt number [k], they raise [failures]
    one after the other, each followed by its wait, and the next attempt
    starts in [w_last]. *)
Inductive failed_attempts {A} (f : M A) (wait : nat -> Z)
  : nat -> world -> list exn -> world -> Prop :=
| no_failed_attempt k w : failed_attempts f wait k w [] w
| one_more_failed_attempt k w e w1 failures w_last :
    f w = (Raised e, w1) ->
    failed_attempts f wait (S k) (after_events w1 [EvSleep (inject_Z (wait k))])
      failures w_last ->
    failed_attempts f wait k w (e :: failures) w_last.

(** A call retried by [g] around the attempt [f]: which attempts failed,
    which one decided, and what the trace shows. *)
Definition retried {A} (f : M A) (wait : nat -> Z) (g : M A) (w : world)
    (failures : list exn) (o : outcome A) (w' : world) : Prop :=
  exists w_last,
    failed_attempts f wait 1 w failures w_last /\
    f w_last = (o, w') /\
    g w = (o, w').

(** Neither a request nor a sleep happened between [w] and [w']. *)
Definition same_traffic (w w' : world) : Prop :=
  requests_of (trace w') = requests_of (trace w) /\
  sleeps_of (trace w') = sleeps_of (trace w).


(** Every request is answered 404. *)
Definition E_always_404 : environment :=
  no_decoders (fun _ _ => NetReply {| status_code := 404; content := [] |}).





(** A series of three members in two folders and a directory entry; two
    members share the base name [a.dcm]. *)
Definition sample_archive : archive :=
  {| namelist := ["x/a.dcm"; "x/"; "y/a.dcm"; "b.dcm"];
     zread := fun m => ReadData (if String.eqb m "x/a.dcm" then [Byte.x01] else [Byte.x02]) |}.

(** Every request is answered 200, and every payload is [sample_archive]. *)
Definition E_sample_archive : environment :=
  {| net := fun _ _ => NetReply ok_response;
     json_object := fun _ => Some {[ "Status" := PyStr "Success" ]};
     json_series := fun _ => Some [ {[ "SeriesInstanceUID" := "1.2.840" ]} ];
     zip_open := fun _ => Some sample_archive;
     int_of_str := fun _ => None |}.

(** The second member of the archive fails its integrity check. *)
Definition corrupt_archive : archive :=
  {| namelist := ["a.dcm"; "b.dcm"];
     zread := fun m => if String.eqb m "a.dcm" then ReadData [Byte.x01] else ReadBadZip |}.

Definition E_corrupt_member : environment :=
  {| net := fun _ _ => NetReply ok_response;
     json_object := fun _ => None;
     json_series := fun _ => None;
     zip_open := fun _ => Some corrupt_archive;
     int_of_str := fun _ => None |}.

(** The only member of the archive is stored in a way the reader cannot
    decode (encrypted, or an unsupported compression method). *)
Definition E_unsupported_member : environment :=
  {| net := fun _ _ => NetReply ok_response;
     json_object := fun _ => None;
     json_series := fun _ => None;
     zip_open := fun _ => Some {| namelist := ["a.dcm"]; zread := fun _ => ReadUnsupported |};
     int_of_str := fun _ => None |}.

(** The files a download call contributes to the collection. *)
Definition files_of (o : outcome (list path)) : list path :=
  match o with
  | Returned files => files
  | Raised _ => []
  end.

Definition series_uid (series_meta : gmap string string) : string :=
  default "" (series_meta !! "SeriesInstanceUID").


(** The connections a trace opens and closes, in order. *)
Fixpoint opens_of (t : list event) : list conn :=
  match t with
  | [] => []
  | EvOpen c :: rest => c :: opens_of rest
  | _ :: rest => opens_of rest
  end.

Fixpoint closes_of (t : list event) : list conn :=
  match t with
  | [] => []
  | EvClose c :: rest => c :: closes_of rest
  | _ :: rest => closes_of rest
  end.

(** Orthanc answers, the archive refuses the metadata query. *)
Definition E_archive_down : environment :=
  {| net := fun _ r => match r with
                       | GetSeries _ => NetFail Refused
                       | _ => NetReply ok_response
                       end;
     json_object := fun _ => Some ∅;
     json_series := fun _ => None;
     zip_open := fun _ => None;
     int_of_str := fun _ => None |}.

(** The collection exists and has no series. *)
Definition E_empty_collection : environment :=
  {| net := fun _ _ => NetReply ok_response;
     json_object := fun _ => Some ∅;
     json_series := fun _ => Some [];
     zip_open := fun _ => None;
     int_of_str := fun _ => None |}.

(** The collection has one series, whose download is answered 404. *)
Definition E_downloads_fail : environment :=
  {| net := fun _ r => match r with
                       | GetImage _ => NetReply {| status_code := 404; content := [] |}
                       | _ => NetReply ok_response
                       end;
     json_object := fun _ => Some ∅;
     json_series := fun _ => Some [ {[ "SeriesInstanceUID" := "1.2.840" ]} ];
     zip_open := fun _ => None;
     int_of_str := fun _ => None |}.

(** Five series; the second one carries no identifier. *)
Definition five_series : list (gmap string string) :=
  [ {[ "SeriesInstanceUID" := "1.1" ]};
    {[ "Modality" := "CT" ]};
    {[ "SeriesInstanceUID" := "1.3" ]};
    {[ "SeriesInstanceUID" := "1.4" ]};
    {[ "SeriesInstanceUID" := "1.5" ]} ].

Definition E_five_series : environment :=
  {| net := fun _ _ => NetReply ok_response;
     json_object := fun _ => Some {[ "Status" := PyStr "Success" ]};
     json_series := fun _ => Some five_series;
     zip_open := fun _ => None;
     int_of_str := fun _ => None |}.


(** Two staged files; Orthanc answers the first upload ["AlreadyStored"] and
    the second ["Success"]. *)
Definition two_files : world :=
  {| nreq := 0; trace := [];
     fs := {[ ["a.dcm"] := [Byte.x01]; ["b.dcm"] := [Byte.x02] ]} |}.

Definition E_two_uploads : environment :=
  {| net := fun n _ => NetReply {| status_code := 200;
                                   content := if Nat.eqb n 0 then [Byte.x01] else [Byte.x02] |};
     json_object := fun body =>
       match body with
       | [Byte.x01] => Some {[ "Status" := PyStr "AlreadyStored" ]}
       | _ => Some {[ "Status" := PyStr "Success" ]}
       end;
     json_series := fun _ => None;
     zip_open := fun _ => None;
     int_of_str := fun _ => None |}.

(** ** scripts/verify_orthanc.py *)

Module VerifyOrthanc.
Section Script.
Context (E : environment).


End Script.
End VerifyOrthanc.

(** ** Vocabulary of the further statements *)

(** Whatever [m] does, it only appends events satisfying [ok]. *)
Definition appends {A} (ok : event -> Prop) (m : M A) : Prop :=
  forall w o w', m w = (o, w') ->
    exists evs, trace w' = (trace w ++ evs)%list /\ Forall ok evs.

(** Whatever [m] does, the files are as before. *)
Definition keeps_files {A} (m : M A) : Prop :=
  forall w o w', m w = (o, w') -> fs w' = fs w.

(** Whatever [m] does, a file that existed still exists. *)
Definition keeps_paths {A} (m : M A) : Prop :=
  forall w o w' p, m w = (o, w') -> is_Some (fs w !! p) -> is_Some (fs w' !! p).

(** The paths a trace writes, in order. *)
Fixpoint writes_of (t : list event) : list path :=
  match t with
  | [] => []
  | EvWrite p :: rest => p :: writes_of rest
  | _ :: rest => writes_of rest
  end.

(** The bytes of the files among [files] that are in the staging area, in
    the order of the list. *)
Definition staged (w : world) (files : list path) : list bytes :=
  omap (fun p => fs w !! p) files.

(** The requests and the waits of a sequence of uploads, each given by
    the bytes sent and the number of attempts: every attempt posts the
    bytes, and two attempts are two seconds apart. *)
Definition upload_requests (sent : list (bytes * nat)) : list request :=
  concat (List.map (fun c => repeat (PostInstances (fst c)) (snd c)) sent).

Definition upload_sleeps (sent : list (bytes * nat)) : list Q :=
  concat (List.map (fun c => repeat 2%Q (snd c - 1)) sent).

(** The events of the readiness wait. *)
Definition wait_event (delay : Q) (ev : event) : Prop :=
  match ev with
  | EvRequest GetSystem | EvPoll _ | EvLog _ _ => True
  | EvSleep d => d = delay
  | _ => False
  end.

(** The events of an upload. *)
Definition upload_event (ev : event) : Prop :=
  match ev with
  | EvRequest (PostInstances _) | EvLog _ _ => True
  | EvSleep d => d = 2%Q
  | _ => False
  end.

(** The events of the download of the series [uid]. *)
Definition download_event (uid : string) (ev : event) : Prop :=
  match ev with
  | EvRequest (GetImage u) => u = uid
  | EvLog _ _ | EvMkdir _ | EvWrite _ => True
  | EvOpen c | EvClose c => c = DownloadConn
  | EvSleep d => d = 4%Q
  | _ => False
  end.

(** The events of the download loop. *)
Definition loop_event (ev : event) : Prop :=
  exists uid, download_event uid ev.

(** The events from the upload stage to the end of the run. *)
Definition upload_stage_event (ev : event) : Prop :=
  upload_event ev \/ ev = EvRequest GetStatistics \/ ev = EvClose OrthancConn.

Definition is_upload_request (ev : event) : Prop :=
  match ev with
  | EvRequest (PostInstances _) => True
  | _ => False
  end.

Definition is_download_activity (ev : event) : Prop :=
  match ev with
  | EvRequest (GetImage _) | EvRequest (GetSeries _) | EvWrite _ | EvMkdir _ => True
  | _ => False
  end.


(** Between [w] and [w'] nothing was created on disk. *)
Definition disk_untouched (w w' : world) : Prop :=
  fs w' = fs w /\
  writes_of (trace w') = writes_of (trace w) /\
  mkdirs_of (trace w') = mkdirs_of (trace w).

(** Between [w] and [w'] exactly [files] were written, in this order; they
    exist in [w'], and so does every file of [w]. *)
Definition wrote (w w' : world) (files : list path) : Prop :=
  writes_of (trace w') = (writes_of (trace w) ++ files)%list /\
  Forall (fun p => is_Some (fs w' !! p)) files /\
  (forall p, is_Some (fs w !! p) -> is_Some (fs w' !! p)).

(** The part of a run [m] closes the Orthanc connection exactly when it
    returns. *)
Definition closes_orthanc_iff_returns (m : M unit) : Prop :=
  forall w o w', m w = (o, w') ->
    exists evs, trace w' = (trace w ++ evs)%list /\
                (In (EvClose OrthancConn) evs <-> o = Returned tt).

(** What [m] does falls in two phases: first events satisfying [first],
    then events satisfying [second]. *)
Definition in_two_phases (first second : event -> Prop) (m : M unit) : Prop :=
  forall w o w', m w = (o, w') ->
    exists before after,
      trace w' = (trace w ++ before ++ after)%list /\
      Forall first before /\ Forall second after.

(** What [get_statistics()] does when its request is the [n]-th of the
    run. *)
Definition statistics_at (E : environment) (n : nat) : outcome (gmap string pyval) :=
  fst (OrthancClient.get_statistics E (fresh_world n)).



(** Every payload is an archive whose only member is named after the
    directory above a folder. *)
Definition E_parent_member : environment :=
  {| net := fun _ _ => NetReply ok_response;
     json_object := fun _ => Some ∅;
     json_series := fun _ => None;
     zip_open := fun _ => Some {| namelist := ["x/.."]; zread := fun _ => ReadData [Byte.x01] |};
     int_of_str := fun _ => None |}.

(** Every payload is an archive whose only member is named [.]: it has
    no base name. *)
Definition E_dot_member : environment :=
  {| net := fun _ _ => NetReply ok_response;
     json_object := fun _ => Some ∅;
     json_series := fun _ => None;
     zip_open := fun _ => Some {| namelist := ["."]; zread := fun _ => ReadData [Byte.x01] |};
     int_of_str := fun _ => None |}.

(** The archive has moved: the first request is answered by a redirect,
    the request that follows it by the list of five series. *)
Definition E_moved : environment :=
  {| net := fun n _ =>
       if Nat.eqb n 0 then NetRedirect {| status_code := 302; content := [] |} "https://mirror/getSeries"
       else NetReply ok_response;
     json_object := fun _ => Some ∅;
     json_series := fun _ => Some five_series;
     zip_open := fun _ => None;
     int_of_str := fun _ => None |}.


(** * Properties *)

(** ** Reasoning about the monad *)

Lemma bind_returned {A B} (m : M A) (k : A -> M B) w a w' :
  m w = (Returned a, w') -> bind m k w = k a w'.
Proof. intros H. unfold bind. now rewrite H. Qed.

Lemma bind_raised {A B} (m : M A) (k : A -> M B) w e w' :
  m w = (Raised e, w') -> bind m k w = (Raised e, w').
Proof. intros H. unfold bind. now rewrite H. Qed.

Lemma raises_only_bind {A B} P (m : M A) (k : A -> M B) :
  raises_only P m -> (forall a, raises_only P (k a)) -> raises_only P (bind m k).
Proof.
  intros Hm Hk w e w'. unfold bind.
  destruct (m w) as [[a|e0] w1] eqn:Em.
  - apply Hk.
  - intros [= <- <-]. eapply Hm, Em.
Qed.

Lemma raises_only_ret {A} P (a : A) : raises_only P (ret a).
Proof. intros w e w'. discriminate. Qed.

Lemma raises_only_raise {A} (P : exn -> Prop) e : P e -> raises_only P (@raise A e).
Proof. intros H w e' w' [= <- _]. exact H. Qed.

Lemma raises_only_emit P ev : raises_only P (emit ev).
Proof. intros w e w'. discriminate. Qed.

Lemma raises_only_sleep (P : exn -> Prop) d : P ValueError -> raises_only P (sleep d).
Proof.
  intros H. unfold sleep. destruct (Qle_bool 0 d).
  - apply raises_only_emit.
  - now apply raises_only_raise.
Qed.

Lemma raises_only_send E r : raises_only (fun e => is_HTTPError e = true) (send E r).
Proof.
  intros w e w'. unfold send. destruct (net E (nreq w) r) as [f|resp|resp loc].
  - intros [= <- _]. now destruct f.
  - discriminate.
  - discriminate.
Qed.

(** ** Redirects *)

(** Following redirects takes requests, at most as many as redirects are
    allowed, and leaves no other trace; it ends with a response that is not
    a redirect the client follows, or with an [httpx.HTTPError]. *)
Lemma follow_run E redirects_left :
  forall answer w o w',
    follow E redirects_left answer w = (o, w') ->
    trace w' = trace w /\ fs w' = fs w /\
    nreq w <= nreq w' <= nreq w + redirects_left /\
    (forall e, o = Raised e -> is_HTTPError e = true).
Proof.
  induction redirects_left as [|n IH]; intros answer w o w';
    destruct answer as [f|resp|resp loc]; simpl;
    try (intros [= <- <-]; repeat split; try lia; intros e [= <-]; now destruct f);
    try (intros [= <- <-]; repeat split; try lia; discriminate);
    destruct (redirect_status resp);
    try (intros [= <- <-]; repeat split; try lia; try discriminate;
         intros e [= <-]; reflexivity).
  intros H. apply IH in H. cbn [nreq trace fs] in H.
  destruct H as (Ht & Hf & Hn & He). repeat split; try assumption; lia.
Qed.

Lemma send_following_run E r w o w' :
  send_following E r w = (o, w') ->
  trace w' = (trace w ++ [EvRequest r])%list /\ fs w' = fs w /\
  nreq w < nreq w' <= nreq w + S max_redirects /\
  (forall e, o = Raised e -> is_HTTPError e = true).
Proof.
  unfold send_following. intros H. apply follow_run in H. cbn [nreq trace fs] in H.
  destruct H as (Ht & Hf & Hn & He). repeat split; try assumption; lia.
Qed.

Lemma send_following_reply E r w resp :
  net E (nreq w) r = NetReply resp ->
  send_following E r w = (Returned resp, after_request w r).
Proof. intros H. unfold send_following. rewrite H. reflexivity. Qed.

Lemma send_following_fail E r w f :
  net E (nreq w) r = NetFail f ->
  send_following E r w = (Raised (exn_of_failure f), after_request w r).
Proof. intros H. unfold send_following. rewrite H. reflexivity. Qed.

Lemma raises_only_send_following E r :
  raises_only (fun e => is_HTTPError e = true) (send_following E r).
Proof.
  intros w e w' H. apply send_following_run in H as (_ & _ & _ & He). now apply He.
Qed.

Lemma raises_only_weaken {A} (P Q : exn -> Prop) (m : M A) :
  (forall e, P e -> Q e) -> raises_only P m -> raises_only Q m.
Proof. intros HPQ Hm w e w' H. eapply HPQ, Hm, H. Qed.

Lemma raises_only_raise_for_status resp :
  raises_only (fun e => is_HTTPError e = true) (raise_for_status resp).
Proof.
  unfold raise_for_status. destruct (status_2xx _).
  - apply raises_only_ret.
  - now apply raises_only_raise.
Qed.

Lemma raises_only_resp_json {A} (P : exn -> Prop) (decode : bytes -> option A) resp :
  P JSONDecodeError -> raises_only P (resp_json decode resp).
Proof.
  intros H. unfold resp_json. destruct (decode _).
  - apply raises_only_ret.
  - now apply raises_only_raise.
Qed.

Lemma raises_only_try_except {A} P (body : M A) catches handler :
  raises_only (fun e => catches e = false -> P e) body ->
  (forall e, raises_only P (handler e)) ->
  raises_only P (try_except body catches handler).
Proof.
  intros Hb Hh w e w'. unfold try_except.
  destruct (body w) as [[a|e0] w1] eqn:Eb; [discriminate|].
  destruct (catches e0) eqn:Ec.
  - apply Hh.
  - intros [= <- <-]. eapply Hb; eauto.
Qed.

Lemma raises_only_retry_loop {A} (P : exn -> Prop) retry_if wait (f : M A) :
  P ValueError -> raises_only P f ->
  forall remaining attempt_number,
    raises_only P (retry_loop retry_if wait remaining attempt_number f).
Proof.
  intros HV Hf remaining.
  induction remaining as [|n IH]; intros k w e w'; simpl; unfold try_except;
    destruct (f w) as [[a|e0] w1] eqn:Ef; try discriminate;
    pose proof (Hf _ _ _ Ef) as HP; destruct (retry_if e0).
  - intros [= <- _]. exact HP.
  - intros [= <- _]. exact HP.
  - apply raises_only_bind.
    + now apply raises_only_sleep.
    + intros _. apply IH.
  - intros [= <- _]. exact HP.
Qed.

Lemma raises_only_upload_dicom_file E p :
  raises_only (fun e => is_Exception e = true) (OrthancClient.upload_dicom_file E p).
Proof.
  unfold OrthancClient.upload_dicom_file.
  apply raises_only_bind.
  - intros w e w'. unfold read_bytes. destruct (fs w !! p); [discriminate|].
    now intros [= <- _].
  - intros data. apply raises_only_bind.
    + unfold OrthancClient.upload_dicom, retry.
      apply raises_only_retry_loop; [reflexivity|].
      unfold OrthancClient.upload_dicom_once.
      apply raises_only_bind.
      * eapply raises_only_weaken; [|apply raises_only_send].
        now intros [].
      * intros resp. apply raises_only_bind.
        -- eapply raises_only_weaken; [|apply raises_only_raise_for_status].
           now intros [].
        -- intros _. now apply raises_only_resp_json.
    + intros result. apply raises_only_bind.
      * apply raises_only_emit.
      * intros _. apply raises_only_ret.
Qed.

Lemma sleep_run d w :
  (0 <= d)%Q -> sleep d w = (Returned tt, after_events w [EvSleep d]).
Proof.
  intros H. unfold sleep. apply Qle_bool_iff in H. now rewrite H.
Qed.

(** A write either fails and leaves the world as it is, or adds its event
    and its file. *)
Lemma write_bytes_run p data w :
  (exists e, write_bytes p data w = (Raised e, w) /\
             (e = FileNotFoundError \/ e = IsADirectoryError)) \/
  write_bytes p data w =
    (Returned tt,
     {| nreq := nreq w; trace := (trace w ++ [EvWrite p])%list; fs := <[p := data]> (fs w) |}).
Proof.
  unfold write_bytes.
  destruct (negb (forallb (is_dir w) (steps [] (path_parent p)))); [left; eauto|].
  destruct (names_directory p || bool_decide (made_last w = Some p)); [left; eauto|now right].
Qed.

(** ** The upload stage *)

Section UploadStage.
Context (E : environment).

Lemma status_is_already_stored (result : gmap string pyval) :
  py_eq_str (default (PyStr "") (result !! "Status")) "AlreadyStored" = true
  <-> result !! "Status" = Some (PyStr "AlreadyStored").
Proof.
  destruct (result !! "Status") as [[| |n|s]|]; simpl; split; try discriminate.
  - intros H. apply bool_decide_eq_true in H. now subst.
  - intros [= ->]. now apply bool_decide_eq_true.
Qed.

Lemma push_file_returned stats p w result w' :
  OrthancClient.upload_dicom_file E p w = (Returned result, w') ->
  Bootstrap.push_file E stats p w =
    (Returned (if py_eq_str (default (PyStr "") (result !! "Status")) "AlreadyStored"
               then incr_already_stored stats else incr_uploaded stats), w').
Proof.
  intros H. unfold Bootstrap.push_file, try_except.
  rewrite (bind_returned _ _ _ _ _ H).
  now destruct (py_eq_str _ _).
Qed.

Lemma push_file_raised stats p w e w' :
  OrthancClient.upload_dicom_file E p w = (Raised e, w') ->
  Bootstrap.push_file E stats p w =
    (Returned (incr_failed stats),
     {| nreq := nreq w';
        trace := (trace w' ++ [EvLog ERROR "Failed to upload %s"])%list;
        fs := fs w' |}).
Proof.
  intros H. unfold Bootstrap.push_file, try_except.
  rewrite (bind_raised _ _ _ _ _ H).
  now rewrite (raises_only_upload_dicom_file E p _ _ _ H).
Qed.

(** Each file moves exactly one counter by one, and the body returns. *)
Lemma push_file_step stats p w :
  exists stats' w',
    Bootstrap.push_file E stats p w = (Returned stats', w') /\
    (stats' = incr_uploaded stats \/ stats' = incr_already_stored stats \/
     stats' = incr_failed stats).
Proof.
  destruct (OrthancClient.upload_dicom_file E p w) as [[result|e] w'] eqn:Hu.
  - rewrite (push_file_returned _ _ _ _ _ Hu).
    destruct (py_eq_str _ _); eauto 6.
  - rewrite (push_file_raised _ _ _ _ _ Hu). eauto 6.
Qed.

Lemma for_each_app {A S} (xs ys : list A) (body : S -> A -> M S) acc w acc' w' :
  for_each xs body acc w = (Returned acc', w') ->
  for_each (xs ++ ys) body acc w = for_each ys body acc' w'.
Proof.
  revert acc w. induction xs as [|x xs IH]; intros acc w; simpl.
  - now intros [= -> ->].
  - unfold bind. destruct (body acc x w) as [[a|e] w1]; [|discriminate].
    apply IH.
Qed.

(** From any counters, processing [files] returns counters that are no
    smaller and whose total has grown by the number of files. *)
Lemma push_files_from (files : list path) stats w :
  exists stats' w',
    for_each files (Bootstrap.push_file E) stats w = (Returned stats', w') /\
    stats_le stats stats' /\
    stats_total stats' = (stats_total stats + Z.of_nat (length files))%Z.
Proof.
  revert stats w. induction files as [|p files IH]; intros stats w.
  - exists stats, w. unfold stats_le, stats_total. simpl. repeat split; lia.
  - destruct (push_file_step stats p w) as (s1 & w1 & H1 & Hs).
    destruct (IH s1 w1) as (s2 & w2 & H2 & Hle & Htot).
    exists s2, w2. split.
    + cbn [for_each]. now rewrite (bind_returned _ _ _ _ _ H1).
    + unfold stats_le, stats_total in *.
      destruct Hs as [-> | [-> | ->]]; simpl in *;
        rewrite Nat2Z.inj_succ; repeat split; lia.
Qed.

(** C1: whatever the files and the services do, the upload stage returns
    its statistics, and at every point of the stage -- after any initial
    part [processed] of the submitted files -- the three counters add up to
    the number of files processed so far; from that point to the end of
    the stage no counter decreases.  In particular the final counters add
    up to the number of files submitted, and all start from zero.  Each
    file adds one to exactly one counter and leaves the other two as they
    are. *)
Theorem upload_stats_account_for_every_file (processed remaining : list path) w :
  exists mid w1 final w2,
    Bootstrap._push_files_to_orthanc E processed w = (Returned mid, w1) /\
    Bootstrap._push_files_to_orthanc E (processed ++ remaining) w = (Returned final, w2) /\
    for_each remaining (Bootstrap.push_file E) mid w1 = (Returned final, w2) /\
    stats_total mid = Z.of_nat (length processed) /\
    stats_total final = Z.of_nat (length (processed ++ remaining)) /\
    stats_le Bootstrap.stats0 mid /\
    stats_le mid final /\
    (forall stats p w0, exists stats' w0',
        Bootstrap.push_file E stats p w0 = (Returned stats', w0') /\
        (stats' = incr_uploaded stats \/ stats' = incr_already_stored stats \/
         stats' = incr_failed stats)).
Proof.
  unfold Bootstrap._push_files_to_orthanc.
  destruct (push_files_from processed Bootstrap.stats0 w) as (mid & w1 & H1 & Hle1 & Ht1).
  destruct (push_files_from remaining mid w1) as (final & w2 & H2 & Hle2 & Ht2).
  exists mid, w1, final, w2.
  rewrite (for_each_app _ remaining _ _ _ _ _ H1).
  assert (Hz : stats_total Bootstrap.stats0 = 0%Z) by reflexivity.
  split; [exact H1|]. split; [exact H2|]. split; [exact H2|].
  split; [lia|]. split; [rewrite length_app; lia|].
  split; [assumption|]. split; [assumption|].
  exact push_file_step.
Qed.

(** C5: the classification of one file, with the counters written out,
    and the scenarios.
    (1) a result whose ["Status"] is ["AlreadyStored"] adds one to
    [already_stored] and leaves the other two counters; (2) any other
    returned result adds one to [uploaded] and leaves the other two; (3) a
    raise adds one to [failed] and leaves the other two, is logged, and the
    loop goes on with the next file; (4) two files answered
    ["AlreadyStored"] and ["Success"] give
    [{uploaded: 1, already_stored: 1, failed: 0}]; (5) a file whose upload
    raises, followed by a file answered ["AlreadyStored"], gives
    [{uploaded: 0, already_stored: 1, failed: 1}]. *)
Theorem upload_result_classification stats (p : path) w :
  (forall result w',
      OrthancClient.upload_dicom_file E p w = (Returned result, w') ->
      result !! "Status" = Some (PyStr "AlreadyStored") ->
      Bootstrap.push_file E stats p w =
        (Returned {| uploaded := uploaded stats;
                     already_stored := already_stored stats + 1;
                     failed := failed stats |}, w')) /\
  (forall result w',
      OrthancClient.upload_dicom_file E p w = (Returned result, w') ->
      result !! "Status" <> Some (PyStr "AlreadyStored") ->
      Bootstrap.push_file E stats p w =
        (Returned {| uploaded := uploaded stats + 1;
                     already_stored := already_stored stats;
                     failed := failed stats |}, w')) /\
  (forall e w',
      OrthancClient.upload_dicom_file E p w = (Raised e, w') ->
      let counted := {| uploaded := uploaded stats;
                        already_stored := already_stored stats;
                        failed := failed stats + 1 |} in
      let logged := after_events w' [EvLog ERROR "Failed to upload %s"] in
      Bootstrap.push_file E stats p w = (Returned counted, logged) /\
      forall rest,
        for_each (p :: rest) (Bootstrap.push_file E) stats w =
        for_each rest (Bootstrap.push_file E) counted logged) /\
  (forall (q : path) rA w1 rB w2,
      OrthancClient.upload_dicom_file E p w = (Returned rA, w1) ->
      rA !! "Status" = Some (PyStr "AlreadyStored") ->
      OrthancClient.upload_dicom_file E q w1 = (Returned rB, w2) ->
      rB !! "Status" = Some (PyStr "Success") ->
      Bootstrap._push_files_to_orthanc E [p; q] w =
        (Returned {| uploaded := 1; already_stored := 1; failed := 0 |}, w2)) /\
  (forall (q : path) e w1 rB w2,
      OrthancClient.upload_dicom_file E p w = (Raised e, w1) ->
      OrthancClient.upload_dicom_file E q
        (after_events w1 [EvLog ERROR "Failed to upload %s"]) = (Returned rB, w2) ->
      rB !! "Status" = Some (PyStr "AlreadyStored") ->
      Bootstrap._push_files_to_orthanc E [p; q] w =
        (Returned {| uploaded := 0; already_stored := 1; failed := 1 |}, w2)).
Proof.
  split; [|split; [|split; [|split]]].
  - intros result w' Hu Hs. rewrite (push_file_returned _ _ _ _ _ Hu).
    apply status_is_already_stored in Hs. now rewrite Hs.
  - intros result w' Hu Hs. rewrite (push_file_returned _ _ _ _ _ Hu).
    destruct (py_eq_str _ _) eqn:Heq; [|reflexivity].
    now apply status_is_already_stored in Heq.
  - intros e w' Hu counted logged.
    split; [apply (push_file_raised _ _ _ _ _ Hu)|].
    intros rest. cbn [for_each].
    now rewrite (bind_returned _ _ _ _ _ (push_file_raised stats _ _ _ _ Hu)).
  - intros q rA w1 rB w2 HA HsA HB HsB.
    unfold Bootstrap._push_files_to_orthanc. cbn [for_each].
    rewrite (bind_returned _ _ _ _ _ (push_file_returned Bootstrap.stats0 _ _ _ _ HA)).
    apply status_is_already_stored in HsA. rewrite HsA.
    rewrite (bind_returned _ _ _ _ _ (push_file_returned _ _ _ _ _ HB)).
    rewrite HsB. reflexivity.
  - intros q e w1 rB w2 HA HB HsB.
    unfold Bootstrap._push_files_to_orthanc. cbn [for_each].
    rewrite (bind_returned _ _ _ _ _ (push_file_raised Bootstrap.stats0 _ _ _ _ HA)).
    rewrite (bind_returned _ _ _ _ _ (push_file_returned _ _ _ _ _ HB)).
    apply status_is_already_stored in HsB. rewrite HsB. reflexivity.
Qed.

End UploadStage.

(** ** The liveness probe *)

Section Liveness.
Context (E : environment).

Lemma get_system_info_run w :
  OrthancClient.get_system_info E w =
    (system_info_at E (nreq w), after_request w GetSystem).
Proof.
  unfold system_info_at, OrthancClient.get_system_info, bind, send, after_request.
  simpl. destruct (net E (nreq w) GetSystem) as [f|resp|resp loc]; [reflexivity| |];
    (unfold raise_for_status; destruct (status_2xx _); [|reflexivity];
     unfold resp_json; simpl; now destruct (json_object E (content resp))).
Qed.

Lemma get_statistics_run w :
  OrthancClient.get_statistics E w =
    (statistics_at E (nreq w), after_request w GetStatistics).
Proof.
  unfold statistics_at, OrthancClient.get_statistics, bind, send, after_request.
  simpl. destruct (net E (nreq w) GetStatistics) as [f|resp|resp loc]; [reflexivity| |];
    (unfold raise_for_status; destruct (status_2xx resp); [|reflexivity];
     unfold resp_json; simpl; now destruct (json_object E (content resp))).
Qed.

Lemma is_alive_run w :
  OrthancClient.is_alive E w = (alive_at E (nreq w), after_request w GetSystem).
Proof.
  unfold alive_at, OrthancClient.is_alive, try_except, bind.
  rewrite !get_system_info_run. simpl.
  destruct (system_info_at E (nreq w)) as [info|e]; [reflexivity|].
  now destruct (is_HTTPError e).
Qed.


(** C8, amended: [is_alive] returns true exactly when the probe returns; it
    turns every [httpx.HTTPError] of the probe into false -- a transport
    failure and a status outside 2xx among them -- and any other error of
    the probe propagates unchanged. *)
Theorem is_alive_swallows_http_errors w :
  (forall info w',
      OrthancClient.get_system_info E w = (Returned info, w') ->
      OrthancClient.is_alive E w = (Returned true, w')) /\
  (forall e w',
      OrthancClient.get_system_info E w = (Raised e, w') ->
      is_HTTPError e = true ->
      OrthancClient.is_alive E w = (Returned false, w')) /\
  (forall w',
      OrthancClient.is_alive E w = (Returned true, w') ->
      exists info, OrthancClient.get_system_info E w = (Returned info, w')) /\
  (forall f,
      net E (nreq w) GetSystem = NetFail f ->
      fst (OrthancClient.is_alive E w) = Returned false) /\
  (forall resp,
      net E (nreq w) GetSystem = NetReply resp ->
      ((status_code resp < 200)%Z \/ (299 < status_code resp)%Z) ->
      fst (OrthancClient.is_alive E w) = Returned false) /\
  (forall e w',
      OrthancClient.get_system_info E w = (Raised e, w') ->
      is_HTTPError e = false ->
      OrthancClient.is_alive E w = (Raised e, w')).
Proof.
  unfold OrthancClient.is_alive, try_except.
  repeat split.
  - intros info w' H. now rewrite (bind_returned _ _ _ _ _ H).
  - intros e w' H He. now rewrite (bind_raised _ _ _ _ _ H), He.
  - intros w'. unfold bind.
    destruct (OrthancClient.get_system_info E w) as [[info|e] w1].
    + intros [= <-]. now exists info.
    + destruct (is_HTTPError e); discriminate.
  - intros f Hf. unfold bind, OrthancClient.get_system_info, bind, send.
    rewrite Hf. now destruct f.
  - intros resp Hr Hs. unfold bind, OrthancClient.get_system_info, bind, send.
    rewrite Hr. unfold raise_for_status, status_2xx.
    replace ((200 <=? status_code resp)%Z && (status_code resp <=? 299)%Z)
      with false; [reflexivity|].
    symmetry. apply andb_false_iff. rewrite !Z.leb_gt. lia.
  - intros e w' H He. now rewrite (bind_raised _ _ _ _ _ H), He.
Qed.

End Liveness.

Lemma is_alive_swallows_http_errors_witness :
  fst (OrthancClient.is_alive E_refused (fresh_world 0)) = Returned false.
Proof.
  apply (proj1 (proj2 (proj2 (proj2
           (is_alive_swallows_http_errors E_refused (fresh_world 0))))) Refused).
  reflexivity.
Defined.

(** C8 as stated fails: when the service answers 200 with a body that is not
    JSON, [is_alive] returns neither true nor false; the decoding error of
    the probe reaches the caller. *)
Lemma is_alive_propagates_decode_error :
  OrthancClient.is_alive E_not_json (fresh_world 0)
    = (Raised JSONDecodeError, after_request (fresh_world 0) GetSystem) /\
  ~ (exists b w', OrthancClient.is_alive E_not_json (fresh_world 0) = (Returned b, w')).
Proof.
  split; [reflexivity|]. intros (b & w' & H). discriminate H.
Qed.

(** ** The readiness wait *)


Lemma sleeps_of_app t1 t2 : sleeps_of (t1 ++ t2) = (sleeps_of t1 ++ sleeps_of t2)%list.
Proof.
  induction t1 as [|ev t1 IH]; [reflexivity|].
  destruct ev; simpl; now rewrite IH.
Qed.

Lemma requests_of_app t1 t2 :
  requests_of (t1 ++ t2) = (requests_of t1 ++ requests_of t2)%list.
Proof.
  induction t1 as [|ev t1 IH]; [reflexivity|].
  destruct ev; simpl; now rewrite IH.
Qed.

Lemma writes_of_app t1 t2 : writes_of (t1 ++ t2) = (writes_of t1 ++ writes_of t2)%list.
Proof.
  induction t1 as [|ev t1 IH]; [reflexivity|].
  destruct ev; simpl; now rewrite IH.
Qed.

Lemma mkdirs_of_app t1 t2 : mkdirs_of (t1 ++ t2) = (mkdirs_of t1 ++ mkdirs_of t2)%list.
Proof.
  induction t1 as [|ev t1 IH]; [reflexivity|].
  destruct ev; simpl; now rewrite IH.
Qed.

Lemma length_py_range a b : length (py_range a b) = Z.to_nat (b - a).
Proof. unfold py_range. now rewrite length_map, length_seq. Qed.

Section Readiness.
Context (E : environment) (delay : Q).



End Readiness.

(** C2 at an input the code mishandles: Orthanc answers the first poll,
    so that [is_alive] returns true, and refuses the request for the system
    information that the wait makes next, outside any [try].  The wait
    then neither proceeds nor leaves by the time-out after its twelve
    attempts: after one poll and no sleep the refusal reaches the caller of
    the wait, and ends the run with an error that is not [sys.exit(1)]. *)
Theorem readiness_wait_ready_then_refused :
  let r := Bootstrap._wait_for_orthanc E_up_once 12 5 (fresh_world 0) in
  fst r = Raised ConnectError /\
  polls_of (trace (snd r)) = [true] /\
  requests_of (trace (snd r)) = [GetSystem; GetSystem] /\
  sleeps_of (trace (snd r)) = [] /\
  alive_at E_up_once 0 = Returned true /\
  fst (Bootstrap.run E_up_once "LIDC-IDRI" 5 ["data"; "tcia_downloads"] (fresh_world 0))
    = Raised ConnectError.
Proof. vm_compute. repeat split. Qed.

(** ** Retried calls *)

Lemma inject_Z_nonneg z : (0 <= z)%Z -> (0 <= inject_Z z)%Q.
Proof. intros H. unfold Qle. simpl. lia. Qed.

Lemma wait_exponential_nonneg multiplier lo hi a :
  (0 <= wait_exponential multiplier lo hi a)%Z.
Proof. unfold wait_exponential. lia. Qed.

Lemma wait_exponential_window multiplier lo hi a :
  (0 <= lo <= hi)%Z ->
  (lo <= wait_exponential multiplier lo hi a <= hi)%Z.
Proof. unfold wait_exponential. lia. Qed.

Section RetryLoop.
Context {A : Type} (f : M A) (retry_if : exn -> bool) (wait : nat -> Z).
Hypothesis wait_nonneg : forall a, (0 <= wait a)%Z.

Lemma retry_loop_returned remaining k w a w' :
  f w = (Returned a, w') ->
  retry_loop retry_if wait remaining k f w = (Returned a, w').
Proof. intros H. destruct remaining; simpl; unfold try_except; now rewrite H. Qed.

Lemma retry_loop_not_retried remaining k w e w' :
  f w = (Raised e, w') -> retry_if e = false ->
  retry_loop retry_if wait remaining k f w = (Raised e, w').
Proof.
  intros H He. destruct remaining; simpl; unfold try_except; now rewrite H, He.
Qed.

Lemma retry_loop_stop k w e w' :
  f w = (Raised e, w') ->
  retry_loop retry_if wait 0 k f w = (Raised e, w').
Proof.
  intros H. simpl. unfold try_except. rewrite H. now destruct (retry_if e).
Qed.

Lemma retry_loop_again remaining k w e w' :
  f w = (Raised e, w') -> retry_if e = true ->
  retry_loop retry_if wait (S remaining) k f w =
    retry_loop retry_if wait remaining (S k) f
      (after_events w' [EvSleep (inject_Z (wait k))]).
Proof.
  intros H He. simpl. unfold try_except. rewrite H, He.
  unfold bind. now rewrite sleep_run by apply inject_Z_nonneg, wait_nonneg.
Qed.

(** The attempts of the loop: at most [remaining] of them fail and are
    retried, each with an error the predicate accepts; the attempt after
    them decides, and its outcome is the outcome of the loop, unchanged.
    The loop stops before its last attempt only on a return or on an
    error the predicate rejects. *)
Lemma retry_loop_attempts remaining :
  forall k w, exists failures w_last o w',
    failed_attempts f wait k w failures w_last /\
    f w_last = (o, w') /\
    retry_loop retry_if wait remaining k f w = (o, w') /\
    length failures <= remaining /\
    Forall (fun e => retry_if e = true) failures /\
    (length failures < remaining -> forall e, o = Raised e -> retry_if e = false).
Proof.
  induction remaining as [|n IH]; intros k w.
  - destruct (f w) as [o w'] eqn:Hf. exists [], w, o, w'.
    repeat split; try constructor; try lia; try exact Hf.
    destruct o as [a|e]; [now apply retry_loop_returned|now apply retry_loop_stop].
  - destruct (f w) as [[a|e] w'] eqn:Hf.
    + exists [], w, (Returned a), w'.
      repeat split; try constructor; try exact Hf; try (simpl; lia).
      * now apply retry_loop_returned.
      * discriminate.
    + destruct (retry_if e) eqn:He.
      * destruct (IH (S k) (after_events w' [EvSleep (inject_Z (wait k))]))
          as (failures & w_last & o & w2 & Hch & Hlast & Hrun & Hlen & Hall & Hearly).
        exists (e :: failures), w_last, o, w2.
        repeat split.
        -- econstructor; eauto.
        -- exact Hlast.
        -- now rewrite (retry_loop_again _ _ _ _ _ Hf He).
        -- simpl. lia.
        -- now constructor.
        -- intros Hlt. apply Hearly. simpl in Hlt. lia.
      * exists [], w, (Raised e), w'.
        repeat split; try constructor; try exact Hf; try (simpl; lia).
        -- now apply retry_loop_not_retried.
        -- now intros _ e' [= <-].
Qed.

(** What the trace shows of the failed attempts when every attempt issues
    exactly the request [r] and never sleeps. *)
Lemma failed_attempts_trace (r : request) :
  (forall w o w', f w = (o, w') ->
     requests_of (trace w') = (requests_of (trace w) ++ [r])%list /\
     sleeps_of (trace w') = sleeps_of (trace w)) ->
  forall k w failures w_last,
    failed_attempts f wait k w failures w_last ->
    requests_of (trace w_last) =
      (requests_of (trace w) ++ repeat r (length failures))%list /\
    sleeps_of (trace w_last) =
      (sleeps_of (trace w) ++
       List.map (fun a => inject_Z (wait a)) (seq k (length failures)))%list.
Proof.
  intros Hone k w failures w_last H.
  induction H as [k w|k w e w1 failures w_last Hf _ IH].
  - simpl. now rewrite !app_nil_r.
  - destruct (Hone _ _ _ Hf) as [Hr Hs]. destruct IH as [IHr IHs].
    rewrite IHr, IHs. simpl.
    rewrite requests_of_app, sleeps_of_app, Hr, Hs. simpl.
    rewrite app_nil_r, <- !app_assoc. split; reflexivity.
Qed.

End RetryLoop.

Section Traffic.
Context (E : environment).

Lemma same_traffic_refl w : same_traffic w w.
Proof. now split. Qed.

Lemma same_traffic_trans w1 w2 w3 :
  same_traffic w1 w2 -> same_traffic w2 w3 -> same_traffic w1 w3.
Proof. intros [? ?] [? ?]. split; congruence. Qed.

Lemma same_traffic_events w evs :
  requests_of evs = [] -> sleeps_of evs = [] ->
  same_traffic w (after_events w evs).
Proof.
  intros Hr Hs. split; simpl.
  - now rewrite requests_of_app, Hr, app_nil_r.
  - now rewrite sleeps_of_app, Hs, app_nil_r.
Qed.

Lemma write_bytes_traffic p data w :
  same_traffic w (snd (write_bytes p data w)).
Proof.
  destruct (write_bytes_run p data w) as [(e & -> & _)| ->]; [apply same_traffic_refl|].
  split; simpl.
  - now rewrite requests_of_app, app_nil_r.
  - now rewrite sleeps_of_app, app_nil_r.
Qed.

Lemma extract_member_traffic zf series_dir files member w :
  same_traffic w (snd (TCIAClient.extract_member zf series_dir files member w)).
Proof.
  unfold TCIAClient.extract_member.
  destruct (endswith_slash member); [apply same_traffic_refl|].
  unfold bind. destruct (zread zf member); simpl; try apply same_traffic_refl.
  match goal with |- context [write_bytes ?t data w] =>
    pose proof (write_bytes_traffic t data w) as H;
    destruct (write_bytes t data w) as [[u|e] w1]; exact H
  end.
Qed.

Lemma extract_all_traffic zf series_dir members :
  forall files w,
    same_traffic w (snd (TCIAClient.extract_all zf series_dir members files w)).
Proof.
  induction members as [|member rest IH]; intros files w; simpl.
  - apply same_traffic_refl.
  - pose proof (extract_member_traffic zf series_dir files member w) as H1.
    destruct (TCIAClient.extract_member zf series_dir files member w) as [[fs'|e] w1].
    + eapply same_traffic_trans; [exact H1|apply IH].
    + exact H1.
Qed.

Lemma save_single_traffic uid series_dir resp files w :
  same_traffic w (snd (TCIAClient.save_single uid series_dir resp files w)).
Proof.
  unfold TCIAClient.save_single, bind, log, emit.
  match goal with |- context [write_bytes ?t ?d ?w1] =>
    pose proof (write_bytes_traffic t d w1) as H;
    destruct (write_bytes t d w1) as [[u|e] w2]
  end; simpl in H |- *;
    (eapply same_traffic_trans; [|exact H]);
    now apply (same_traffic_events w [_]).
Qed.

Lemma extract_or_fallback_traffic uid series_dir resp w :
  same_traffic w (snd (TCIAClient.extract_or_fallback E uid series_dir resp w)).
Proof.
  unfold TCIAClient.extract_or_fallback.
  destruct (zip_open E (content resp)) as [zf|].
  - pose proof (extract_all_traffic zf series_dir (namelist zf) [] w) as H1.
    destruct (TCIAClient.extract_all zf series_dir (namelist zf) [] w)
      as [[[u|e] files] w1]; simpl in H1; [exact H1|].
    destruct e; try exact H1.
    eapply same_traffic_trans; [exact H1|apply save_single_traffic].
  - apply save_single_traffic.
Qed.

(** One attempt of an upload issues its request and nothing else. *)
Lemma upload_dicom_once_world data w :
  snd (OrthancClient.upload_dicom_once E data w) = after_request w (PostInstances data).
Proof.
  unfold OrthancClient.upload_dicom_once, bind, send, after_request.
  destruct (net E (nreq w) (PostInstances data)) as [f|resp|resp loc]; [reflexivity| |];
    (unfold raise_for_status; destruct (status_2xx _); [|reflexivity];
     unfold resp_json; now destruct (json_object E (content resp))).
Qed.

Lemma upload_dicom_once_traffic data w o w' :
  OrthancClient.upload_dicom_once E data w = (o, w') ->
  requests_of (trace w') = (requests_of (trace w) ++ [PostInstances data])%list /\
  sleeps_of (trace w') = sleeps_of (trace w).
Proof.
  intros H. pose proof (upload_dicom_once_world data w) as Hw.
  rewrite H in Hw. simpl in Hw. subst w'. simpl.
  now rewrite requests_of_app, sleeps_of_app, app_nil_r.
Qed.

(** One attempt of a download, told by what its request gives. *)
Lemma download_series_once_run uid dir w :
  TCIAClient.download_series_once E uid dir w =
    match send_following E (GetImage uid)
            (after_events w [EvLog INFO "Downloading series %s"; EvOpen DownloadConn]) with
    | (Raised e, w1) => (Raised e, after_events w1 [EvClose DownloadConn])
    | (Returned resp, w1) =>
        if status_2xx resp then
          match TCIAClient.extract_or_fallback E uid (path_join dir uid) resp
                  (after_events w1 [EvClose DownloadConn; EvMkdir (path_join dir uid)]) with
          | (Returned files, w2) =>
              (Returned files,
               after_events w2 [EvLog INFO "Extracted %d file(s) for series %s -> %s"])
          | (Raised e, w2) => (Raised e, w2)
          end
        else (Raised (HTTPStatusError (status_code resp)),
              after_events w1 [EvClose DownloadConn])
    end.
Proof.
  unfold TCIAClient.download_series_once, bind, try_finally, log, emit, mkdir, after_events.
  cbn [nreq trace fs]. rewrite <- app_assoc. cbn [app].
  destruct (send_following E (GetImage uid) _) as [[resp|e] w1]; [|reflexivity].
  unfold raise_for_status. destruct (status_2xx resp); cbn; [|reflexivity].
  rewrite <- app_assoc. cbn [app].
  now destruct (TCIAClient.extract_or_fallback E uid _ resp _) as [[files|e] w2].
Qed.

(** One attempt of a download issues its request once, on every path. *)
Lemma download_series_once_traffic uid dir w o w' :
  TCIAClient.download_series_once E uid dir w = (o, w') ->
  requests_of (trace w') = (requests_of (trace w) ++ [GetImage uid])%list /\
  sleeps_of (trace w') = sleeps_of (trace w).
Proof.
  rewrite download_series_once_run.
  destruct (send_following E (GetImage uid) _) as [[resp|e] w1] eqn:Hsend;
    apply send_following_run in Hsend as (Ht & _ & _ & _); cbn [trace after_events] in Ht.
  - destruct (status_2xx resp).
    + match goal with |- context [TCIAClient.extract_or_fallback E uid ?d resp ?w2] =>
        pose proof (extract_or_fallback_traffic uid d resp w2) as [Hr Hs];
        destruct (TCIAClient.extract_or_fallback E uid d resp w2) as [[files|e] w3]
      end; cbn [snd trace after_events] in Hr, Hs; intros [= _ <-];
        cbn [trace after_events];
        rewrite ?requests_of_app, ?sleeps_of_app, ?Hr, ?Hs;
        rewrite ?requests_of_app, ?sleeps_of_app, ?Ht;
        rewrite ?requests_of_app, ?sleeps_of_app; simpl;
        now rewrite ?app_nil_r.
    + intros [= _ <-]. cbn [trace after_events].
      rewrite !requests_of_app, !sleeps_of_app, Ht, !requests_of_app, !sleeps_of_app.
      simpl. now rewrite !app_nil_r.
  - intros [= _ <-]. cbn [trace after_events].
    rewrite !requests_of_app, !sleeps_of_app, Ht, !requests_of_app, !sleeps_of_app.
    simpl. now rewrite !app_nil_r.
Qed.

End Traffic.

Section RetryPolicy.
Context (E : environment).

(** Three attempts at most around an attempt that issues one request. *)
Lemma retry_three_attempts {A} (f : M A) (wait : nat -> Z) (r : request) (pause : Z) :
  (forall a, (0 <= wait a)%Z) ->
  wait 1 = pause -> wait 2 = pause ->
  (forall w o w', f w = (o, w') ->
     requests_of (trace w') = (requests_of (trace w) ++ [r])%list /\
     sleeps_of (trace w') = sleeps_of (trace w)) ->
  forall w, exists failures o w',
    retried f wait (retry is_connect_or_timeout 3 wait f) w failures o w' /\
    length failures <= 2 /\
    Forall (fun e => is_connect_or_timeout e = true) failures /\
    (length failures < 2 -> forall e, o = Raised e -> is_connect_or_timeout e = false) /\
    requests_of (trace w') =
      (requests_of (trace w) ++ repeat r (S (length failures)))%list /\
    sleeps_of (trace w') =
      (sleeps_of (trace w) ++ repeat (inject_Z pause) (length failures))%list.
Proof.
  intros Hwait H1 H2 Hone w.
  destruct (retry_loop_attempts f is_connect_or_timeout wait Hwait 2 1 w)
    as (failures & w_last & o & w' & Hch & Hlast & Hrun & Hlen & Hall & Hearly).
  exists failures, o, w'.
  destruct (failed_attempts_trace f wait r Hone _ _ _ _ Hch) as [Hr Hs].
  destruct (Hone _ _ _ Hlast) as [Hr' Hs'].
  split; [now exists w_last|].
  split; [exact Hlen|]. split; [exact Hall|]. split; [exact Hearly|].
  split.
  - rewrite Hr', Hr, <- app_assoc. f_equal.
    now rewrite <- repeat_cons.
  - rewrite Hs', Hs. f_equal.
    destruct failures as [|e1 [|e2 [|e3 rest]]]; simpl in *;
      rewrite ?H1, ?H2; try reflexivity; lia.
Qed.

Lemma upload_bad_status data w resp :
  net E (nreq w) (PostInstances data) = NetReply resp ->
  status_2xx resp = false ->
  OrthancClient.upload_dicom_once E data w =
    (Raised (HTTPStatusError (status_code resp)), after_request w (PostInstances data)).
Proof.
  intros Hn Hs. unfold OrthancClient.upload_dicom_once, bind, send.
  rewrite Hn. unfold raise_for_status. now rewrite Hs.
Qed.

Lemma download_bad_status uid dir w resp :
  net E (nreq w) (GetImage uid) = NetReply resp ->
  status_2xx resp = false ->
  fst (TCIAClient.download_series_once E uid dir w) =
    Raised (HTTPStatusError (status_code resp)).
Proof.
  intros Hn Hs. rewrite download_series_once_run.
  rewrite (send_following_reply E _ _ resp) by exact Hn. now rewrite Hs.
Qed.

Lemma upload_retried data w :
  exists failures o w',
    retried (OrthancClient.upload_dicom_once E data) (wait_exponential 1 2 10)
      (OrthancClient.upload_dicom E data) w failures o w' /\
    length failures <= 2 /\
    Forall (fun e => is_connect_or_timeout e = true) failures /\
    (length failures < 2 -> forall e, o = Raised e -> is_connect_or_timeout e = false) /\
    requests_of (trace w') =
      (requests_of (trace w) ++ repeat (PostInstances data) (S (length failures)))%list /\
    sleeps_of (trace w') = (sleeps_of (trace w) ++ repeat 2%Q (length failures))%list.
Proof.
  apply (retry_three_attempts _ _ (PostInstances data) 2).
  - intros a. apply wait_exponential_nonneg.
  - reflexivity.
  - reflexivity.
  - apply upload_dicom_once_traffic.
Qed.

Lemma download_retried uid dir w :
  exists failures o w',
    retried (TCIAClient.download_series_once E uid dir) (wait_exponential 2 4 30)
      (TCIAClient.download_series E uid dir) w failures o w' /\
    length failures <= 2 /\
    Forall (fun e => is_connect_or_timeout e = true) failures /\
    (length failures < 2 -> forall e, o = Raised e -> is_connect_or_timeout e = false) /\
    requests_of (trace w') =
      (requests_of (trace w) ++ repeat (GetImage uid) (S (length failures)))%list /\
    sleeps_of (trace w') = (sleeps_of (trace w) ++ repeat 4%Q (length failures))%list.
Proof.
  apply (retry_three_attempts _ _ (GetImage uid) 4).
  - intros a. apply wait_exponential_nonneg.
  - reflexivity.
  - reflexivity.
  - apply download_series_once_traffic.
Qed.

(** An attempt that fails below HTTP raises the error of the transport and
    has used up one request. *)
Lemma upload_attempt_net_fail data w f :
  net E (nreq w) (PostInstances data) = NetFail f ->
  OrthancClient.upload_dicom_once E data w =
    (Raised (exn_of_failure f), after_request w (PostInstances data)).
Proof.
  intros Hn. unfold OrthancClient.upload_dicom_once, bind, send. now rewrite Hn.
Qed.

Lemma download_attempt_net_fail uid dir w f :
  net E (nreq w) (GetImage uid) = NetFail f ->
  exists w',
    TCIAClient.download_series_once E uid dir w = (Raised (exn_of_failure f), w') /\
    nreq w' = S (nreq w).
Proof.
  intros Hn. eexists. split.
  - rewrite download_series_once_run.
    rewrite (send_following_fail E _ _ f) by exact Hn. reflexivity.
  - reflexivity.
Qed.

(** Three attempts that all fail with a connection or time-out error: the
    call raises the error of the third. *)
Lemma upload_gives_up data w f1 f2 f3 :
  net E (nreq w) (PostInstances data) = NetFail f1 ->
  net E (S (nreq w)) (PostInstances data) = NetFail f2 ->
  net E (S (S (nreq w))) (PostInstances data) = NetFail f3 ->
  is_connect_or_timeout (exn_of_failure f1) = true ->
  is_connect_or_timeout (exn_of_failure f2) = true ->
  fst (OrthancClient.upload_dicom E data w) = Raised (exn_of_failure f3).
Proof.
  intros H1 H2 H3 R1 R2. unfold OrthancClient.upload_dicom, retry. simpl Nat.sub.
  set (r := PostInstances data) in *.
  set (w1 := after_events (after_request w r)
               [EvSleep (inject_Z (wait_exponential 1 2 10 1))]).
  set (w2 := after_events (after_request w1 r)
               [EvSleep (inject_Z (wait_exponential 1 2 10 2))]).
  rewrite (retry_loop_again _ _ _ (wait_exponential_nonneg 1 2 10) _ _ _ _ _
             (upload_attempt_net_fail data w f1 H1) R1).
  rewrite (retry_loop_again _ _ _ (wait_exponential_nonneg 1 2 10) _ _ _ _ _
             (upload_attempt_net_fail data w1 f2 H2) R2).
  now rewrite (retry_loop_stop _ _ _ _ _ _ _ (upload_attempt_net_fail data w2 f3 H3)).
Qed.

Lemma download_gives_up uid dir w f1 f2 f3 :
  net E (nreq w) (GetImage uid) = NetFail f1 ->
  net E (S (nreq w)) (GetImage uid) = NetFail f2 ->
  net E (S (S (nreq w))) (GetImage uid) = NetFail f3 ->
  is_connect_or_timeout (exn_of_failure f1) = true ->
  is_connect_or_timeout (exn_of_failure f2) = true ->
  fst (TCIAClient.download_series E uid dir w) = Raised (exn_of_failure f3).
Proof.
  intros H1 H2 H3 R1 R2. unfold TCIAClient.download_series, retry. simpl Nat.sub.
  destruct (download_attempt_net_fail uid dir w f1 H1) as (w1 & A1 & N1).
  rewrite (retry_loop_again _ _ _ (wait_exponential_nonneg 2 4 30) _ _ _ _ _ A1 R1).
  destruct (download_attempt_net_fail uid dir
              (after_events w1 [EvSleep (inject_Z (wait_exponential 2 4 30 1))]) f2)
    as (w2 & A2 & N2); [cbn [nreq after_events]; now rewrite N1|].
  rewrite (retry_loop_again _ _ _ (wait_exponential_nonneg 2 4 30) _ _ _ _ _ A2 R2).
  destruct (download_attempt_net_fail uid dir
              (after_events w2 [EvSleep (inject_Z (wait_exponential 2 4 30 2))]) f3)
    as (w3 & A3 & N3).
  { cbn [nreq after_events]. rewrite N2. cbn [nreq after_events]. now rewrite N1. }
  now rewrite (retry_loop_stop _ _ _ _ _ _ _ A3).
Qed.

(** C7, amended: an upload and a download attempt their request at most
    three times; an attempt is followed by another one only when it raised
    a connection or time-out error, so that any other outcome -- a status
    outside 2xx among them, on the first attempt already -- is the outcome
    of the call; when the third attempt fails as well, its error is raised
    as it is.  The waits are those of [wait_exponential]: within 2-10 s for
    an upload and 4-30 s for a download, and over the three attempts 2 s
    then 2 s for an upload, 4 s then 4 s for a download. *)
Theorem retry_policy :
  (forall data w, exists failures o w',
      retried (OrthancClient.upload_dicom_once E data) (wait_exponential 1 2 10)
        (OrthancClient.upload_dicom E data) w failures o w' /\
      length failures <= 2 /\
      Forall (fun e => is_connect_or_timeout e = true) failures /\
      (length failures < 2 -> forall e, o = Raised e -> is_connect_or_timeout e = false) /\
      requests_of (trace w') =
        (requests_of (trace w) ++ repeat (PostInstances data) (S (length failures)))%list /\
      sleeps_of (trace w') = (sleeps_of (trace w) ++ repeat 2%Q (length failures))%list) /\
  (forall uid dir w, exists failures o w',
      retried (TCIAClient.download_series_once E uid dir) (wait_exponential 2 4 30)
        (TCIAClient.download_series E uid dir) w failures o w' /\
      length failures <= 2 /\
      Forall (fun e => is_connect_or_timeout e = true) failures /\
      (length failures < 2 -> forall e, o = Raised e -> is_connect_or_timeout e = false) /\
      requests_of (trace w') =
        (requests_of (trace w) ++ repeat (GetImage uid) (S (length failures)))%list /\
      sleeps_of (trace w') = (sleeps_of (trace w) ++ repeat 4%Q (length failures))%list) /\
  (forall data w resp,
      net E (nreq w) (PostInstances data) = NetReply resp ->
      status_2xx resp = false ->
      OrthancClient.upload_dicom E data w =
        (Raised (HTTPStatusError (status_code resp)),
         after_request w (PostInstances data))) /\
  (forall uid dir w resp,
      net E (nreq w) (GetImage uid) = NetReply resp ->
      status_2xx resp = false ->
      let r := TCIAClient.download_series E uid dir w in
      fst r = Raised (HTTPStatusError (status_code resp)) /\
      requests_of (trace (snd r)) = (requests_of (trace w) ++ [GetImage uid])%list /\
      sleeps_of (trace (snd r)) = sleeps_of (trace w)) /\
  (forall data w f1 f2 f3,
      net E (nreq w) (PostInstances data) = NetFail f1 ->
      net E (S (nreq w)) (PostInstances data) = NetFail f2 ->
      net E (S (S (nreq w))) (PostInstances data) = NetFail f3 ->
      is_connect_or_timeout (exn_of_failure f1) = true ->
      is_connect_or_timeout (exn_of_failure f2) = true ->
      fst (OrthancClient.upload_dicom E data w) = Raised (exn_of_failure f3)) /\
  (forall uid dir w f1 f2 f3,
      net E (nreq w) (GetImage uid) = NetFail f1 ->
      net E (S (nreq w)) (GetImage uid) = NetFail f2 ->
      net E (S (S (nreq w))) (GetImage uid) = NetFail f3 ->
      is_connect_or_timeout (exn_of_failure f1) = true ->
      is_connect_or_timeout (exn_of_failure f2) = true ->
      fst (TCIAClient.download_series E uid dir w) = Raised (exn_of_failure f3)) /\
  (forall a, (2 <= wait_exponential 1 2 10 a <= 10)%Z) /\
  (forall a, (4 <= wait_exponential 2 4 30 a <= 30)%Z).
Proof.
  split; [exact upload_retried|]. split; [exact download_retried|].
  split; [|split; [|split; [|split; [|split]]]].
  - intros data w resp Hn Hs.
    unfold OrthancClient.upload_dicom, retry.
    apply retry_loop_not_retried; [|reflexivity].
    now apply upload_bad_status.
  - intros uid dir w resp Hn Hs r.
    pose proof (download_bad_status uid dir w resp Hn Hs) as Hb.
    destruct (TCIAClient.download_series_once E uid dir w) as [o w1] eqn:Hrun.
    simpl in Hb. subst o.
    assert (Hr : r = (Raised (HTTPStatusError (status_code resp)), w1)).
    { unfold r, TCIAClient.download_series, retry.
      now apply retry_loop_not_retried. }
    rewrite Hr. simpl. split; [reflexivity|].
    apply (download_series_once_traffic E _ _ _ _ _ Hrun).
  - exact upload_gives_up.
  - exact download_gives_up.
  - intros a. apply wait_exponential_window. lia.
  - intros a. apply wait_exponential_window. lia.
Qed.

End RetryPolicy.

Lemma retry_policy_witness :
  OrthancClient.upload_dicom E_always_404 [] (fresh_world 0) =
    (Raised (HTTPStatusError 404), after_request (fresh_world 0) (PostInstances [])).
Proof.
  apply (proj1 (proj2 (proj2 (retry_policy E_always_404)))
           [] (fresh_world 0) {| status_code := 404; content := [] |});
    reflexivity.
Defined.

(** C7 as stated fails for the downloads: when all three attempts are
    refused, the two waits between them are 4 s and 4 s, where a delay that
    starts at 4 s and doubles would wait 4 s and 8 s. *)
Lemma download_waits_do_not_double :
  let r := TCIAClient.download_series E_refused "1.2.840" ["data"] (fresh_world 0) in
  fst r = Raised ConnectError /\
  requests_of (trace (snd r)) = [GetImage "1.2.840"; GetImage "1.2.840"; GetImage "1.2.840"] /\
  sleeps_of (trace (snd r)) = [4%Q; 4%Q] /\
  sleeps_of (trace (snd r)) <> [4%Q; 8%Q].
Proof. vm_compute. repeat split. discriminate. Qed.

(** ** Paths *)














(** ** The directories of the staging area *)








(** ** Extraction of a downloaded series *)

Section Extraction.
Context (E : environment).





End Extraction.


(** ** The fallback for a payload that is not an archive *)

Section Fallback.
Context (E : environment).


End Fallback.

(** C6 at a payload the code mishandles: the archive opens, its first
    member is extracted, its second member fails the integrity check of the
    reader.  The handler then appends the raw payload to the list that
    already holds the first member: two paths are returned, not one.  A
    member the reader cannot decode at all makes the call raise. *)
Theorem fallback_after_partial_extraction :
  let r := TCIAClient.download_series E_corrupt_member "1.2.840" ["data"] (fresh_world 0) in
  fst r = Returned [["data"; "1.2.840"; "a.dcm"]; ["data"; "1.2.840"; "1.2.840.dcm"]] /\
  In (EvLog WARNING "Response was not a ZIP; saving as single DICOM file.") (trace (snd r)) /\
  fst (TCIAClient.download_series E_unsupported_member "1.2.840" ["data"] (fresh_world 0))
    = Raised ArchiveReadError.
Proof.
  vm_compute. split; [reflexivity|]. split; [|reflexivity]. tauto.
Qed.

(** ** The download loop *)

Lemma raises_only_try_finally {A} P (body : M A) cleanup :
  raises_only P body -> raises_only P cleanup ->
  raises_only P (try_finally body cleanup).
Proof.
  intros Hb Hc w e w'. unfold try_finally.
  destruct (body w) as [[a|e0] w1] eqn:Eb;
    destruct (cleanup w1) as [[u|e1] w2] eqn:Ec; try discriminate.
  - intros [= <- _]. eapply Hc, Ec.
  - intros [= <- _]. eapply Hb, Eb.
  - intros [= <- _]. eapply Hc, Ec.
Qed.

Section DownloadLoop.
Context (E : environment).

Lemma raises_only_write_bytes p data :
  raises_only (fun e => e = FileNotFoundError \/ e = IsADirectoryError)
    (write_bytes p data).
Proof.
  intros w e w' H.
  destruct (write_bytes_run p data w) as [(e1 & H1 & He)|H1]; rewrite H1 in H.
  - now injection H as <- _.
  - discriminate.
Qed.

Lemma extract_all_raises zf series_dir members :
  forall files w e files' w',
    TCIAClient.extract_all zf series_dir members files w = ((Raised e, files'), w') ->
    e = BadZipFile \/ e = ArchiveReadError \/ e = FileNotFoundError \/
    e = IsADirectoryError.
Proof.
  induction members as [|m rest IH]; intros files w e files' w'; simpl; [discriminate|].
  destruct (TCIAClient.extract_member zf series_dir files m w) as [[l|e0] w1] eqn:Hm.
  - apply IH.
  - intros [= <- _ _]. revert Hm. unfold TCIAClient.extract_member.
    destruct (endswith_slash m); [discriminate|].
    unfold bind. destruct (zread zf m) as [d| |]; simpl.
    + match goal with |- context [write_bytes ?t d w] =>
        destruct (write_bytes t d w) as [[u|e1] w2] eqn:Hw
      end; [discriminate|].
      intros [= <- _]. apply raises_only_write_bytes in Hw. tauto.
    + intros [= <- _]. auto.
    + intros [= <- _]. auto.
Qed.

Lemma raises_only_save_single uid series_dir resp files :
  raises_only (fun e => e = FileNotFoundError \/ e = IsADirectoryError)
    (TCIAClient.save_single uid series_dir resp files).
Proof.
  unfold TCIAClient.save_single.
  apply raises_only_bind; [apply raises_only_emit|]. intros _.
  apply raises_only_bind; [apply raises_only_write_bytes|]. intros _.
  apply raises_only_ret.
Qed.

(** What the extraction of a payload can raise: an error of the archive
    reader other than [BadZipFile], or an error of a write. *)
Lemma raises_only_extract_or_fallback uid series_dir resp :
  raises_only
    (fun e => e = ArchiveReadError \/ e = FileNotFoundError \/ e = IsADirectoryError)
    (TCIAClient.extract_or_fallback E uid series_dir resp).
Proof.
  intros w e w'. unfold TCIAClient.extract_or_fallback.
  destruct (zip_open E (content resp)) as [zf|].
  - destruct (TCIAClient.extract_all zf series_dir (namelist zf) [] w)
      as [[[u|e0] files] w1] eqn:Hx; [discriminate|].
    destruct (extract_all_raises _ _ _ _ _ _ _ _ Hx) as [-> | [-> | [-> | ->]]].
    + intros H. apply raises_only_save_single in H. tauto.
    + intros [= <- _]. auto.
    + intros [= <- _]. auto.
    + intros [= <- _]. auto.
  - intros H. apply raises_only_save_single in H. tauto.
Qed.

Lemma raises_only_download_series uid dir :
  raises_only (fun e => is_Exception e = true) (TCIAClient.download_series E uid dir).
Proof.
  unfold TCIAClient.download_series, retry.
  apply raises_only_retry_loop; [reflexivity|].
  unfold TCIAClient.download_series_once.
  apply raises_only_bind; [apply raises_only_emit|]. intros _.
  apply raises_only_bind.
  - apply raises_only_bind; [apply raises_only_emit|]. intros _.
    apply raises_only_try_finally; [|apply raises_only_emit].
    apply raises_only_bind.
    + eapply raises_only_weaken; [|apply raises_only_send_following]. now intros [].
    + intros resp. apply raises_only_bind; [|intros _; apply raises_only_ret].
      eapply raises_only_weaken; [|apply raises_only_raise_for_status]. now intros [].
  - intros resp. apply raises_only_bind; [apply raises_only_emit|]. intros _.
    apply raises_only_bind.
    + eapply raises_only_weaken; [|apply raises_only_extract_or_fallback].
      now intros ? [-> | [-> | ->]].
    + intros files. apply raises_only_bind; [apply raises_only_emit|].
      intros _. apply raises_only_ret.
Qed.

(** One turn of the loop always returns: it appends the files of a
    download that returned, and nothing otherwise. *)
Lemma download_selected_run dir acc series_meta w :
  Bootstrap.download_selected E dir acc series_meta w =
    (Returned
       (acc ++ (if bool_decide (series_uid series_meta = "") then []
                else files_of (fst (TCIAClient.download_series E
                                      (series_uid series_meta) dir w))))%list,
     snd (Bootstrap.download_selected E dir [] series_meta w)).
Proof.
  unfold Bootstrap.download_selected. fold (series_uid series_meta).
  destruct (bool_decide (series_uid series_meta = "")).
  - simpl. now rewrite app_nil_r.
  - unfold try_except, bind.
    destruct (TCIAClient.download_series E (series_uid series_meta) dir w)
      as [[files|e] w1] eqn:Hd; simpl; [reflexivity|].
    rewrite (raises_only_download_series _ _ _ _ _ Hd). simpl.
    now rewrite app_nil_r.
Qed.


End DownloadLoop.

(** ** The run *)

Section Run.
Context (E : environment).






End Run.

Section Selection.
Context (E : environment).






End Selection.




Lemma upload_result_classification_witness :
  (exists w2,
     Bootstrap._push_files_to_orthanc E_two_uploads [["a.dcm"]; ["b.dcm"]] two_files =
       (Returned {| uploaded := 1; already_stored := 1; failed := 0 |}, w2) /\
     requests_of (trace w2) = [PostInstances [Byte.x01]; PostInstances [Byte.x02]]) /\
  (exists w2,
     Bootstrap._push_files_to_orthanc E_two_uploads [["missing.dcm"]; ["a.dcm"]] two_files =
       (Returned {| uploaded := 0; already_stored := 1; failed := 1 |}, w2) /\
     requests_of (trace w2) = [PostInstances [Byte.x01]]).
Proof.
  split.
  - eexists. split.
    + eapply (proj1 (proj2 (proj2 (proj2
                (upload_result_classification E_two_uploads Bootstrap.stats0
                   ["a.dcm"] two_files))))
              ["b.dcm"]).
      * vm_compute. reflexivity.
      * vm_compute. reflexivity.
      * vm_compute. reflexivity.
      * vm_compute. reflexivity.
    + vm_compute. reflexivity.
  - eexists. split.
    + eapply (proj2 (proj2 (proj2 (proj2
                (upload_result_classification E_two_uploads Bootstrap.stats0
                   ["missing.dcm"] two_files))))
              ["a.dcm"]).
      * vm_compute. reflexivity.
      * vm_compute. reflexivity.
      * vm_compute. reflexivity.
    + vm_compute. reflexivity.
Defined.

(** The run reaches the download part when Orthanc became ready and the
    discovery returned a list that is not empty. *)
Lemma run_reaches_download E collection max_series dir w w1 series_list w2 :
  (mkdir dir ;; OrthancClient.init ;; Bootstrap._wait_for_orthanc E 12 5)%py w
    = (Returned tt, w1) ->
  (TCIAClient.init ;; TCIAClient.get_series E collection)%py w1
    = (Returned series_list, w2) ->
  series_list <> [] ->
  Bootstrap.run E collection max_series dir w =
    Bootstrap.run_download E max_series dir series_list w2.
Proof.
  intros H1 H2 Hne.
  unfold Bootstrap.run, bind, try_except, mkdir, OrthancClient.init, TCIAClient.init, emit in *.
  cbn [nreq trace fs] in *.
  destruct (Bootstrap._wait_for_orthanc E 12 5 _) as [[[]|e] w1'];
    [|discriminate]. injection H1 as ->.
  destruct (TCIAClient.get_series E collection _) as [[l|e] w2']; [|discriminate].
  injection H2 as -> ->.
  destruct series_list; [contradiction|reflexivity].
Qed.

(** C9 at the inputs the code mishandles: on each of the four fatal paths
    the run ends by [sys.exit(1)] and the Orthanc connection, opened at the
    start, is never closed; on the first three the archive connection is
    not closed either.  Only a run that completes closes both. *)
Theorem fatal_exits_leave_connections_open :
  let run E := Bootstrap.run E "LIDC-IDRI" 5 ["data"; "tcia_downloads"] (fresh_world 0) in
  (fst (run E_refused) = Raised (SystemExit 1) /\
   opens_of (trace (snd (run E_refused))) = [OrthancConn] /\
   closes_of (trace (snd (run E_refused))) = []) /\
  (fst (run E_archive_down) = Raised (SystemExit 1) /\
   opens_of (trace (snd (run E_archive_down))) = [OrthancConn; TciaConn] /\
   closes_of (trace (snd (run E_archive_down))) = []) /\
  (fst (run E_empty_collection) = Raised (SystemExit 1) /\
   opens_of (trace (snd (run E_empty_collection))) = [OrthancConn; TciaConn] /\
   closes_of (trace (snd (run E_empty_collection))) = []) /\
  (fst (run E_downloads_fail) = Raised (SystemExit 1) /\
   opens_of (trace (snd (run E_downloads_fail))) = [OrthancConn; TciaConn; DownloadConn] /\
   closes_of (trace (snd (run E_downloads_fail))) = [DownloadConn; TciaConn]) /\
  (fst (run E_sample_archive) = Returned tt /\
   opens_of (trace (snd (run E_sample_archive))) = [OrthancConn; TciaConn; DownloadConn] /\
   closes_of (trace (snd (run E_sample_archive))) = [DownloadConn; TciaConn; OrthancConn]).
Proof. vm_compute. repeat split. Qed.

(** * Further properties of the code *)

(** ** What a piece of code appends to the trace *)

Lemma appends_weaken {A} (ok ok' : event -> Prop) (m : M A) :
  (forall ev, ok ev -> ok' ev) -> appends ok m -> appends ok' m.
Proof.
  intros Himp Hm w o w' H. destruct (Hm _ _ _ H) as (evs & Ht & Hall).
  exists evs. split; [exact Ht|]. eapply Forall_impl; eauto.
Qed.

Lemma appends_ret {A} ok (a : A) : appends ok (ret a).
Proof. intros w o w' [= <- <-]. exists []. now rewrite app_nil_r. Qed.

Lemma appends_raise {A} ok e : appends ok (@raise A e).
Proof. intros w o w' [= <- <-]. exists []. now rewrite app_nil_r. Qed.

Lemma appends_emit (ok : event -> Prop) ev : ok ev -> appends ok (emit ev).
Proof.
  intros Hok w o w' [= <- <-]. exists [ev]. split; [reflexivity|].
  now apply List.Forall_cons.
Qed.

Lemma appends_bind {A B} ok (m : M A) (k : A -> M B) :
  appends ok m -> (forall a, appends ok (k a)) -> appends ok (bind m k).
Proof.
  intros Hm Hk w o w'. unfold bind.
  destruct (m w) as [[a|e] w1] eqn:Em.
  - intros H. destruct (Hm _ _ _ Em) as (e1 & T1 & F1).
    destruct (Hk _ _ _ _ H) as (e2 & T2 & F2).
    exists (e1 ++ e2)%list. rewrite T2, T1, app_assoc.
    split; [reflexivity|now apply Forall_app].
  - intros [= <- <-]. apply (Hm _ _ _ Em).
Qed.

Lemma appends_try_except {A} ok (body : M A) catches handler :
  appends ok body -> (forall e, appends ok (handler e)) ->
  appends ok (try_except body catches handler).
Proof.
  intros Hb Hh w o w'. unfold try_except.
  destruct (body w) as [[a|e] w1] eqn:Eb.
  - intros [= <- <-]. apply (Hb _ _ _ Eb).
  - destruct (catches e).
    + intros H. destruct (Hb _ _ _ Eb) as (e1 & T1 & F1).
      destruct (Hh _ _ _ _ H) as (e2 & T2 & F2).
      exists (e1 ++ e2)%list. rewrite T2, T1, app_assoc.
      split; [reflexivity|now apply Forall_app].
    + intros [= <- <-]. apply (Hb _ _ _ Eb).
Qed.

Lemma appends_try_finally {A} ok (body : M A) cleanup :
  appends ok body -> appends ok cleanup -> appends ok (try_finally body cleanup).
Proof.
  intros Hb Hc w o w'. unfold try_finally.
  destruct (body w) as [[a|e] w1] eqn:Eb;
    destruct (cleanup w1) as [[u|e1] w2] eqn:Ec; intros [= <- <-];
    destruct (Hb _ _ _ Eb) as (e1' & T1 & F1);
    destruct (Hc _ _ _ Ec) as (e2' & T2 & F2);
    exists (e1' ++ e2')%list; rewrite T2, T1, app_assoc;
    (split; [reflexivity|now apply Forall_app]).
Qed.

Lemma appends_for_each {A S} ok (xs : list A) (body : S -> A -> M S) :
  (forall acc x, appends ok (body acc x)) ->
  forall acc, appends ok (for_each xs body acc).
Proof.
  intros Hb. induction xs as [|x xs IH]; intros acc; simpl.
  - apply appends_ret.
  - apply appends_bind; [apply Hb|]. intros a. apply IH.
Qed.

Lemma appends_sleep (ok : event -> Prop) d : ok (EvSleep d) -> appends ok (sleep d).
Proof.
  intros H. unfold sleep. destruct (Qle_bool 0 d).
  - now apply appends_emit.
  - apply appends_raise.
Qed.

Lemma appends_send (ok : event -> Prop) E r : ok (EvRequest r) -> appends ok (send E r).
Proof.
  intros H w o w'. unfold send. destruct (net E (nreq w) r); intros [= <- <-];
    exists [EvRequest r]; (split; [reflexivity|now apply List.Forall_cons]).
Qed.

Lemma appends_raise_for_status ok resp : appends ok (raise_for_status resp).
Proof.
  unfold raise_for_status. destruct (status_2xx resp);
    [apply appends_ret|apply appends_raise].
Qed.

Lemma appends_resp_json {A} ok (decode : bytes -> option A) resp :
  appends ok (resp_json decode resp).
Proof.
  unfold resp_json. destruct (decode _); [apply appends_ret|apply appends_raise].
Qed.

Lemma appends_read_bytes ok p : appends ok (read_bytes p).
Proof.
  intros w o w'. unfold read_bytes. destruct (fs w !! p); intros [= <- <-];
    exists []; now rewrite app_nil_r.
Qed.

Lemma appends_write_bytes (ok : event -> Prop) p data :
  ok (EvWrite p) -> appends ok (write_bytes p data).
Proof.
  intros H w o w' Hw.
  destruct (write_bytes_run p data w) as [(e & H1 & _)|H1]; rewrite H1 in Hw;
    injection Hw as <- <-.
  - exists []. now rewrite app_nil_r.
  - exists [EvWrite p]. split; [reflexivity|now apply List.Forall_cons].
Qed.

Lemma appends_send_following (ok : event -> Prop) E r :
  ok (EvRequest r) -> appends ok (send_following E r).
Proof.
  intros H w o w' Hs. apply send_following_run in Hs as (Ht & _).
  exists [EvRequest r]. split; [exact Ht|now apply List.Forall_cons].
Qed.

Lemma appends_retry_loop {A} (ok : event -> Prop) retry_if wait (f : M A) :
  appends ok f ->
  forall remaining k,
    (forall a, k <= a < k + remaining -> ok (EvSleep (inject_Z (wait a)))) ->
    appends ok (retry_loop retry_if wait remaining k f).
Proof.
  intros Hf remaining. induction remaining as [|n IH]; intros k Hs; simpl.
  - apply appends_try_except; [exact Hf|]. intros e.
    destruct (retry_if e); apply appends_raise.
  - apply appends_try_except; [exact Hf|]. intros e.
    destruct (retry_if e); [|apply appends_raise].
    apply appends_bind; [apply appends_sleep, Hs; lia|]. intros _.
    apply IH. intros a Ha. apply Hs. lia.
Qed.

(** ** What a piece of code does to the files *)

Lemma keeps_files_ret {A} (a : A) : keeps_files (ret a).
Proof. now intros w o w' [= <- <-]. Qed.

Lemma keeps_files_raise {A} e : keeps_files (@raise A e).
Proof. now intros w o w' [= <- <-]. Qed.

Lemma keeps_files_emit ev : keeps_files (emit ev).
Proof. now intros w o w' [= <- <-]. Qed.

Lemma keeps_files_bind {A B} (m : M A) (k : A -> M B) :
  keeps_files m -> (forall a, keeps_files (k a)) -> keeps_files (bind m k).
Proof.
  intros Hm Hk w o w'. unfold bind.
  destruct (m w) as [[a|e] w1] eqn:Em.
  - intros H. rewrite (Hk _ _ _ _ H). apply (Hm _ _ _ Em).
  - intros [= <- <-]. apply (Hm _ _ _ Em).
Qed.

Lemma keeps_files_try_except {A} (body : M A) catches handler :
  keeps_files body -> (forall e, keeps_files (handler e)) ->
  keeps_files (try_except body catches handler).
Proof.
  intros Hb Hh w o w'. unfold try_except.
  destruct (body w) as [[a|e] w1] eqn:Eb.
  - intros [= <- <-]. apply (Hb _ _ _ Eb).
  - destruct (catches e).
    + intros H. rewrite (Hh _ _ _ _ H). apply (Hb _ _ _ Eb).
    + intros [= <- <-]. apply (Hb _ _ _ Eb).
Qed.

Lemma keeps_files_for_each {A S} (xs : list A) (body : S -> A -> M S) :
  (forall acc x, keeps_files (body acc x)) ->
  forall acc, keeps_files (for_each xs body acc).
Proof.
  intros Hb. induction xs as [|x xs IH]; intros acc; simpl.
  - apply keeps_files_ret.
  - apply keeps_files_bind; [apply Hb|]. intros a. apply IH.
Qed.

Lemma keeps_files_sleep d : keeps_files (sleep d).
Proof.
  unfold sleep. destruct (Qle_bool 0 d);
    [apply keeps_files_emit|apply keeps_files_raise].
Qed.

Lemma keeps_files_send E r : keeps_files (send E r).
Proof.
  intros w o w'. unfold send. now destruct (net E (nreq w) r); intros [= <- <-].
Qed.

Lemma keeps_files_send_following E r : keeps_files (send_following E r).
Proof.
  intros w o w' Hs. now apply send_following_run in Hs as (_ & Hf & _).
Qed.

Lemma keeps_files_raise_for_status resp : keeps_files (raise_for_status resp).
Proof.
  unfold raise_for_status. destruct (status_2xx resp);
    [apply keeps_files_ret|apply keeps_files_raise].
Qed.

Lemma keeps_files_resp_json {A} (decode : bytes -> option A) resp :
  keeps_files (resp_json decode resp).
Proof.
  unfold resp_json. destruct (decode _);
    [apply keeps_files_ret|apply keeps_files_raise].
Qed.

Lemma keeps_files_read_bytes p : keeps_files (read_bytes p).
Proof.
  intros w o w'. unfold read_bytes. now destruct (fs w !! p); intros [= <- <-].
Qed.

Lemma keeps_files_retry_loop {A} retry_if wait (f : M A) :
  keeps_files f ->
  forall remaining k, keeps_files (retry_loop retry_if wait remaining k f).
Proof.
  intros Hf remaining. induction remaining as [|n IH]; intros k; simpl.
  - apply keeps_files_try_except; [exact Hf|]. intros e.
    destruct (retry_if e); apply keeps_files_raise.
  - apply keeps_files_try_except; [exact Hf|]. intros e.
    destruct (retry_if e); [|apply keeps_files_raise].
    apply keeps_files_bind; [apply keeps_files_sleep|]. intros _. apply IH.
Qed.

(** ** Further properties: the Orthanc client *)

Section OrthancTraffic.
Context (E : environment).

Lemma appends_get_system_info (ok : event -> Prop) :
  ok (EvRequest GetSystem) -> appends ok (OrthancClient.get_system_info E).
Proof.
  intros H. unfold OrthancClient.get_system_info.
  apply appends_bind; [now apply appends_send|]. intros resp.
  apply appends_bind; [apply appends_raise_for_status|]. intros _.
  apply appends_resp_json.
Qed.

Lemma appends_is_alive (ok : event -> Prop) :
  ok (EvRequest GetSystem) -> appends ok (OrthancClient.is_alive E).
Proof.
  intros H. unfold OrthancClient.is_alive. apply appends_try_except.
  - apply appends_bind; [now apply appends_get_system_info|].
    intros _. apply appends_ret.
  - intros e. apply appends_ret.
Qed.

Lemma appends_get_statistics (ok : event -> Prop) :
  ok (EvRequest GetStatistics) -> appends ok (OrthancClient.get_statistics E).
Proof.
  intros H. unfold OrthancClient.get_statistics.
  apply appends_bind; [now apply appends_send|]. intros resp.
  apply appends_bind; [apply appends_raise_for_status|]. intros _.
  apply appends_resp_json.
Qed.

Lemma keeps_files_get_system_info : keeps_files (OrthancClient.get_system_info E).
Proof.
  unfold OrthancClient.get_system_info.
  apply keeps_files_bind; [apply keeps_files_send|]. intros resp.
  apply keeps_files_bind; [apply keeps_files_raise_for_status|]. intros _.
  apply keeps_files_resp_json.
Qed.

Lemma keeps_files_is_alive : keeps_files (OrthancClient.is_alive E).
Proof.
  unfold OrthancClient.is_alive. apply keeps_files_try_except.
  - apply keeps_files_bind; [apply keeps_files_get_system_info|].
    intros _. apply keeps_files_ret.
  - intros e. apply keeps_files_ret.
Qed.

Lemma keeps_files_get_statistics : keeps_files (OrthancClient.get_statistics E).
Proof.
  unfold OrthancClient.get_statistics.
  apply keeps_files_bind; [apply keeps_files_send|]. intros resp.
  apply keeps_files_bind; [apply keeps_files_raise_for_status|]. intros _.
  apply keeps_files_resp_json.
Qed.

Lemma appends_upload_dicom data : appends upload_event (OrthancClient.upload_dicom E data).
Proof.
  unfold OrthancClient.upload_dicom, retry. apply appends_retry_loop.
  - unfold OrthancClient.upload_dicom_once.
    apply appends_bind; [now apply appends_send|]. intros resp.
    apply appends_bind; [apply appends_raise_for_status|]. intros _.
    apply appends_resp_json.
  - intros a Ha. assert (a = 1 \/ a = 2) as [-> | ->] by (simpl in Ha; lia);
      reflexivity.
Qed.

Lemma keeps_files_upload_dicom data : keeps_files (OrthancClient.upload_dicom E data).
Proof.
  unfold OrthancClient.upload_dicom, retry. apply keeps_files_retry_loop.
  unfold OrthancClient.upload_dicom_once.
  apply keeps_files_bind; [apply keeps_files_send|]. intros resp.
  apply keeps_files_bind; [apply keeps_files_raise_for_status|]. intros _.
  apply keeps_files_resp_json.
Qed.

Lemma appends_upload_dicom_file p :
  appends upload_event (OrthancClient.upload_dicom_file E p).
Proof.
  unfold OrthancClient.upload_dicom_file.
  apply appends_bind; [apply appends_read_bytes|]. intros data.
  apply appends_bind; [apply appends_upload_dicom|]. intros result.
  apply appends_bind; [now apply appends_emit|]. intros _. apply appends_ret.
Qed.

Lemma keeps_files_upload_dicom_file p :
  keeps_files (OrthancClient.upload_dicom_file E p).
Proof.
  unfold OrthancClient.upload_dicom_file.
  apply keeps_files_bind; [apply keeps_files_read_bytes|]. intros data.
  apply keeps_files_bind; [apply keeps_files_upload_dicom|]. intros result.
  apply keeps_files_bind; [apply keeps_files_emit|]. intros _. apply keeps_files_ret.
Qed.

End OrthancTraffic.

(** ** Further properties: the upload stage *)

Section UploadTraffic.
Context (E : environment).

Lemma upload_dicom_file_traffic p w :
  let w' := snd (OrthancClient.upload_dicom_file E p w) in
  exists n s,
    length (requests_of (trace w')) = length (requests_of (trace w)) + n /\
    length (sleeps_of (trace w')) = length (sleeps_of (trace w)) + s /\
    n <= 3 /\ s <= 2 /\
    (is_Some (fs w !! p) -> 1 <= n).
Proof.
  unfold OrthancClient.upload_dicom_file, bind, read_bytes.
  destruct (fs w !! p) as [data|] eqn:Hp; simpl.
  - destruct (upload_retried E data w)
      as (failures & o & w1 & (w_last & _ & _ & Hg) & Hlen & _ & _ & Hr & Hs).
    rewrite Hg. exists (S (length failures)), (length failures).
    assert (length (requests_of (trace w1)) =
            length (requests_of (trace w)) + S (length failures)) as Hr'
      by (rewrite Hr, length_app, repeat_length; reflexivity).
    assert (length (sleeps_of (trace w1)) =
            length (sleeps_of (trace w)) + length failures) as Hs'
      by (rewrite Hs, length_app, repeat_length; reflexivity).
    destruct o as [result|e]; simpl;
      rewrite ?requests_of_app, ?sleeps_of_app, ?length_app; simpl;
      repeat split; try lia.
  - exists 0, 0. repeat split; try lia. intros [x Hx]. discriminate.
Qed.

Lemma push_file_traffic stats p w :
  let w' := snd (Bootstrap.push_file E stats p w) in
  exists n s,
    length (requests_of (trace w')) = length (requests_of (trace w)) + n /\
    length (sleeps_of (trace w')) = length (sleeps_of (trace w)) + s /\
    n <= 3 /\ s <= 2 /\
    (is_Some (fs w !! p) -> 1 <= n) /\
    fs w' = fs w.
Proof.
  destruct (upload_dicom_file_traffic p w) as (n & s & Hr & Hs & Hn & Hs2 & Hp).
  pose proof (keeps_files_upload_dicom_file E p w) as Hfs.
  destruct (OrthancClient.upload_dicom_file E p w) as [[result|e] w1] eqn:Hu;
    simpl in Hr, Hs; specialize (Hfs _ _ eq_refl).
  - rewrite (push_file_returned E stats _ _ _ _ Hu). simpl. exists n, s. auto 10.
  - rewrite (push_file_raised E stats _ _ _ _ Hu). simpl. exists n, s.
    rewrite requests_of_app, sleeps_of_app, !length_app. simpl.
    repeat split; try lia; auto.
Qed.

Lemma push_files_traffic files :
  forall stats w,
    let w' := snd (for_each files (Bootstrap.push_file E) stats w) in
    length (requests_of (trace w')) <= length (requests_of (trace w)) + 3 * length files /\
    length (sleeps_of (trace w')) <= length (sleeps_of (trace w)) + 2 * length files /\
    fs w' = fs w /\
    (Forall (fun p => is_Some (fs w !! p)) files ->
     length (requests_of (trace w)) + length files <= length (requests_of (trace w'))).
Proof.
  induction files as [|p files IH]; intros stats w; simpl.
  - repeat split; lia.
  - unfold bind.
    destruct (push_file_traffic stats p w) as (n & s & Hr & Hs & Hn & Hs2 & Hp & Hfs).
    destruct (push_file_step E stats p w) as (s1 & w1 & H1 & _).
    rewrite H1 in Hr, Hs, Hfs |- *. simpl in Hr, Hs, Hfs.
    destruct (IH s1 w1) as (Ir & Is & Ifs & Ip). simpl in Ir, Is, Ifs, Ip.
    repeat split; try lia.
    + congruence.
    + intros Hall. inversion Hall as [|? ? Hp0 Hrest]; subst.
      specialize (Hp Hp0).
      assert (Forall (fun p => is_Some (fs w1 !! p)) files) as Hrest'
        by (now rewrite Hfs).
      specialize (Ip Hrest'). lia.
Qed.

(** X1: A file that is missing from the staging area is counted as failed
    without any request to Orthanc: the only trace of it is the error
    log. *)
Theorem missing_file_counts_as_failed stats (p : path) w :
  fs w !! p = None ->
  Bootstrap.push_file E stats p w =
    (Returned {| uploaded := uploaded stats;
                 already_stored := already_stored stats;
                 failed := failed stats + 1 |},
     after_events w [EvLog ERROR "Failed to upload %s"]).
Proof.
  intros Hp.
  assert (Hu : OrthancClient.upload_dicom_file E p w = (Raised FileNotFoundError, w)).
  { unfold OrthancClient.upload_dicom_file, bind, read_bytes. now rewrite Hp. }
  now rewrite (push_file_raised E stats _ _ _ _ Hu).
Qed.

(** X2: The upload stage never touches the staged files, and everything it does
    is an upload request, a wait of two seconds between two attempts, or a
    log line; on an empty list it does nothing at all. *)
Theorem upload_stage_only_uploads (files : list path) w :
  let r := Bootstrap._push_files_to_orthanc E files w in
  fs (snd r) = fs w /\
  (exists evs, trace (snd r) = (trace w ++ evs)%list /\ Forall upload_event evs) /\
  Bootstrap._push_files_to_orthanc E [] w = (Returned Bootstrap.stats0, w).
Proof.
  intros r. unfold r, Bootstrap._push_files_to_orthanc.
  split; [|split; [|reflexivity]].
  - apply (push_files_traffic files Bootstrap.stats0 w).
  - destruct (for_each files (Bootstrap.push_file E) Bootstrap.stats0 w) as [o w'] eqn:H.
    simpl. revert H. apply appends_for_each. intros acc p.
    unfold Bootstrap.push_file. apply appends_try_except.
    + apply appends_bind; [apply appends_upload_dicom_file|]. intros result.
      destruct (py_eq_str _ _); apply appends_ret.
    + intros e. apply appends_bind; [now apply appends_emit|].
      intros _. apply appends_ret.
Qed.

Lemma staged_one w p :
  staged w [p] = match fs w !! p with Some data => [data] | None => [] end.
Proof. reflexivity. Qed.

(** What one file of the upload stage sends: nothing when it is not in
    the staging area, and otherwise its bytes, one to three times. *)
Lemma upload_dicom_file_sent p w o w' :
  OrthancClient.upload_dicom_file E p w = (o, w') ->
  exists sent : list (bytes * nat),
    List.map fst sent = staged w [p] /\
    Forall (fun c => 1 <= snd c <= 3) sent /\
    requests_of (trace w') = (requests_of (trace w) ++ upload_requests sent)%list /\
    sleeps_of (trace w') = (sleeps_of (trace w) ++ upload_sleeps sent)%list.
Proof.
  unfold OrthancClient.upload_dicom_file, bind, read_bytes. rewrite staged_one.
  destruct (fs w !! p) as [data|] eqn:Hp.
  - destruct (upload_retried E data w)
      as (failures & o1 & w1 & (w_last & _ & _ & Hg) & Hlen & _ & _ & Hr & Hs).
    rewrite Hg. intros H.
    exists [(data, S (length failures))].
    assert (Ht : requests_of (trace w') = requests_of (trace w1) /\
                 sleeps_of (trace w') = sleeps_of (trace w1)).
    { destruct o1 as [result|e]; cbn [log emit] in H; injection H as <- <-;
        cbn [trace]; rewrite ?requests_of_app, ?sleeps_of_app; simpl;
        now rewrite ?app_nil_r. }
    destruct Ht as [-> ->]. rewrite Hr, Hs.
    unfold upload_requests, upload_sleeps. cbn [List.map concat fst snd].
    rewrite !app_nil_r, Nat.sub_succ, Nat.sub_0_r.
    split; [reflexivity|]. split; [|split; reflexivity].
    apply List.Forall_cons; [cbn [snd]; lia|constructor].
  - intros [= <- <-]. exists []. unfold upload_requests, upload_sleeps. simpl.
    rewrite !app_nil_r. repeat split. constructor.
Qed.

Lemma push_file_sent stats p w o w' :
  Bootstrap.push_file E stats p w = (o, w') ->
  fs w' = fs w /\
  exists sent : list (bytes * nat),
    List.map fst sent = staged w [p] /\
    Forall (fun c => 1 <= snd c <= 3) sent /\
    requests_of (trace w') = (requests_of (trace w) ++ upload_requests sent)%list /\
    sleeps_of (trace w') = (sleeps_of (trace w) ++ upload_sleeps sent)%list.
Proof.
  intros H.
  destruct (OrthancClient.upload_dicom_file E p w) as [[result|e] w1] eqn:Hu;
    pose proof (keeps_files_upload_dicom_file E p w _ _ Hu) as Hfs;
    destruct (upload_dicom_file_sent p w _ _ Hu) as (sent & Hm & Hn & Hr & Hs).
  - rewrite (push_file_returned E stats _ _ _ _ Hu) in H. injection H as _ <-.
    split; [exact Hfs|]. now exists sent.
  - rewrite (push_file_raised E stats _ _ _ _ Hu) in H. injection H as _ <-.
    split; [exact Hfs|]. exists sent. cbn [trace].
    rewrite requests_of_app, sleeps_of_app. simpl. now rewrite !app_nil_r.
Qed.

Lemma staged_cons w p files :
  staged w (p :: files) = (staged w [p] ++ staged w files)%list.
Proof. rewrite staged_one. unfold staged. simpl. now destruct (fs w !! p). Qed.

Lemma staged_same_files w1 w2 files : fs w1 = fs w2 -> staged w1 files = staged w2 files.
Proof. unfold staged. now intros ->. Qed.

(** The requests of the files of a list, one file after the other. *)
Lemma push_files_sent files :
  forall stats w o w',
    for_each files (Bootstrap.push_file E) stats w = (o, w') ->
    exists sent : list (bytes * nat),
      List.map fst sent = staged w files /\
      Forall (fun c => 1 <= snd c <= 3) sent /\
      requests_of (trace w') = (requests_of (trace w) ++ upload_requests sent)%list /\
      sleeps_of (trace w') = (sleeps_of (trace w) ++ upload_sleeps sent)%list.
Proof.
  induction files as [|p files IH]; intros stats w o w' H.
  - injection H as _ <-. exists []. unfold upload_requests, upload_sleeps. simpl.
    rewrite !app_nil_r. repeat split. constructor.
  - cbn [for_each] in H. unfold bind in H.
    destruct (Bootstrap.push_file E stats p w) as [[s1|e] w1] eqn:H1.
    2:{ destruct (push_file_step E stats p w) as (s1 & w1' & Hret & _).
        rewrite Hret in H1. discriminate. }
    destruct (push_file_sent _ _ _ _ _ H1) as (Hfs & sent1 & Hm1 & Hn1 & Hr1 & Hs1).
    destruct (IH _ _ _ _ H) as (sent2 & Hm2 & Hn2 & Hr2 & Hs2).
    exists (sent1 ++ sent2)%list. split; [|split; [|split]].
    + rewrite List.map_app, Hm1, Hm2, (staged_cons w p files).
      now rewrite (staged_same_files w1 w files Hfs).
    + now apply Forall_app.
    + rewrite Hr2, Hr1. unfold upload_requests.
      now rewrite List.map_app, concat_app, <- app_assoc.
    + rewrite Hs2, Hs1. unfold upload_sleeps.
      now rewrite List.map_app, concat_app, <- app_assoc.
Qed.

(** X3: The requests of the upload stage are those of the files of the list
    that are in the staging area, in the order of the list: the bytes of
    each such file are posted at least once and at most three times, with a
    wait of two seconds between two attempts for the same file.  A file
    that is not in the staging area is not sent, and nothing else is
    sent. *)
Theorem upload_stage_traffic_bounds (files : list path) w :
  let w' := snd (Bootstrap._push_files_to_orthanc E files w) in
  exists sent : list (bytes * nat),
    List.map fst sent = staged w files /\
    Forall (fun c => 1 <= snd c <= 3) sent /\
    requests_of (trace w') = (requests_of (trace w) ++ upload_requests sent)%list /\
    sleeps_of (trace w') = (sleeps_of (trace w) ++ upload_sleeps sent)%list.
Proof.
  intros w'. unfold w', Bootstrap._push_files_to_orthanc.
  destruct (for_each files (Bootstrap.push_file E) Bootstrap.stats0 w) as [o w1] eqn:H.
  apply (push_files_sent _ _ _ _ _ H).
Qed.

End UploadTraffic.

(** ** Further properties: the readiness wait *)

Section WaitTraffic.
Context (E : environment) (delay : Q).

Lemma poll_loop_traffic (attempts : list Z) :
  forall w o w',
    Bootstrap.poll_loop E delay attempts w = (o, w') ->
    fs w' = fs w /\
    exists evs,
      trace w' = (trace w ++ evs)%list /\
      Forall (wait_event delay) evs /\
      length (requests_of evs) <= S (length attempts) /\
      length (sleeps_of evs) <= length attempts.
Proof.
  induction attempts as [|a rest IH]; intros w o w' H.
  - injection H as <- <-. split; [reflexivity|]. eexists. split; [reflexivity|].
    split; [repeat apply List.Forall_cons; simpl; auto|]. simpl. lia.
  - cbn [Bootstrap.poll_loop] in H. unfold bind at 1 in H. rewrite is_alive_run in H.
    destruct (alive_at E (nreq w)) as [[|]|e].
    + unfold bind at 1 in H. cbn [emit] in H. unfold bind at 1 in H.
      rewrite get_system_info_run in H. cbn [nreq trace fs after_request] in H.
      destruct (system_info_at E (S (nreq w))) as [info|e]; simpl in H;
        injection H as <- <-; (split; [reflexivity|]); eexists;
        cbn [nreq trace fs after_request]; rewrite <- ?app_assoc;
        (split; [reflexivity|]);
        (split; [repeat apply List.Forall_cons; simpl; auto|simpl; lia]).
    + unfold bind at 1 in H. cbn [emit] in H. unfold bind at 1 in H.
      cbn [log emit] in H. unfold bind at 1, sleep in H.
      destruct (Qle_bool 0 delay).
      * cbn [emit] in H. destruct (IH _ _ _ H) as (Hfs & evs & Ht & Hall & Hr & Hs).
        cbn [nreq trace fs after_request] in Hfs, Ht.
        split; [exact Hfs|].
        exists ([EvRequest GetSystem; EvPoll false;
                 EvLog WARNING "Orthanc not reachable (attempt %d/%d), retrying in %.0fs";
                 EvSleep delay] ++ evs)%list.
        split; [rewrite Ht, <- !app_assoc; reflexivity|].
        split; [repeat apply List.Forall_cons; simpl; auto|].
        rewrite requests_of_app, sleeps_of_app, !length_app. simpl. lia.
      * simpl in H. injection H as <- <-. split; [reflexivity|]. eexists.
        cbn [nreq trace fs after_request]. rewrite <- ?app_assoc.
        split; [reflexivity|].
        split; [repeat apply List.Forall_cons; simpl; auto|simpl; lia].
    + simpl in H. injection H as <- <-. split; [reflexivity|]. eexists.
      cbn [nreq trace fs after_request]. split; [reflexivity|].
      split; [repeat apply List.Forall_cons; simpl; auto|simpl; lia].
Qed.

(** X4: However the service answers, the wait asks for nothing but the system
    information, at most [N + 1] times, sleeps at most [N] times and only
    for [delay], and leaves the files alone. *)
Theorem readiness_wait_traffic (N : Z) w :
  let r := Bootstrap._wait_for_orthanc E N delay w in
  fs (snd r) = fs w /\
  exists evs,
    trace (snd r) = (trace w ++ evs)%list /\
    Forall (wait_event delay) evs /\
    length (requests_of evs) <= S (Z.to_nat N) /\
    length (sleeps_of evs) <= Z.to_nat N.
Proof.
  intros r. unfold r, Bootstrap._wait_for_orthanc.
  destruct (Bootstrap.poll_loop E delay (py_range 1 (N + 1)) w) as [o w'] eqn:H.
  apply poll_loop_traffic in H. rewrite length_py_range in H.
  replace (N + 1 - 1)%Z with N in H by lia. exact H.
Qed.

(** X5: With no attempt allowed the wait gives up at once: no poll, no sleep. *)
Theorem readiness_wait_without_attempts (N : Z) w :
  (N <= 0)%Z ->
  Bootstrap._wait_for_orthanc E N delay w =
    (Raised (SystemExit 1),
     after_events w [EvLog ERROR "Orthanc did not become available after %d attempts."]).
Proof.
  intros HN. unfold Bootstrap._wait_for_orthanc, py_range.
  replace (Z.to_nat (N + 1 - 1)) with 0 by lia. reflexivity.
Qed.




End WaitTraffic.

(** ** Further properties: the download of a series *)

Lemma wrote_nothing w : wrote w w [].
Proof. split; [now rewrite app_nil_r|]. split; [constructor|auto]. Qed.

Lemma wrote_trans w1 w2 w3 l1 l2 :
  wrote w1 w2 l1 -> wrote w2 w3 l2 -> wrote w1 w3 (l1 ++ l2).
Proof.
  intros (T1 & F1 & K1) (T2 & F2 & K2). split; [|split].
  - now rewrite T2, T1, app_assoc.
  - apply Forall_app. split; [|exact F2].
    eapply Forall_impl; [exact F1|]. intros p Hp. now apply K2.
  - intros p Hp. now apply K2, K1.
Qed.

(** Events that are neither a write nor anything else on disk. *)
Lemma wrote_events w evs :
  writes_of evs = [] -> wrote w (after_events w evs) [].
Proof.
  intros H. split; [|split; [constructor|auto]].
  simpl. now rewrite writes_of_app, H.
Qed.

Lemma wrote_write p data w w' :
  write_bytes p data w = (Returned tt, w') -> wrote w w' [p].
Proof.
  intros H.
  destruct (write_bytes_run p data w) as [(e & H1 & _)|H1]; rewrite H1 in H;
    [discriminate|]. injection H as <-.
  split; [|split].
  - simpl. now rewrite writes_of_app.
  - apply List.Forall_cons; [|constructor]. simpl. rewrite lookup_insert_eq. eauto.
  - intros q Hq. simpl. destruct (decide (p = q)) as [->|Hne].
    + rewrite lookup_insert_eq. eauto.
    + now rewrite lookup_insert_ne.
Qed.

Lemma write_bytes_raised p data w e w' :
  write_bytes p data w = (Raised e, w') -> w' = w.
Proof.
  intros H.
  destruct (write_bytes_run p data w) as [(e1 & H1 & _)|H1]; rewrite H1 in H;
    [now injection H as _ <-|discriminate].
Qed.

Section DownloadEffects.
Context (E : environment).

Lemma extract_member_wrote zf series_dir files member w :
  let r := TCIAClient.extract_member zf series_dir files member w in
  match fst r with
  | Returned files' => exists new, files' = (files ++ new)%list /\ wrote w (snd r) new
  | Raised _ => snd r = w
  end.
Proof.
  unfold TCIAClient.extract_member.
  destruct (endswith_slash member).
  - simpl. exists []. rewrite app_nil_r. split; [reflexivity|apply wrote_nothing].
  - unfold bind. destruct (zread zf member) as [d| |]; simpl; try reflexivity.
    match goal with |- context [write_bytes ?t d w] =>
      destruct (write_bytes t d w) as [[[]|e] w1] eqn:Hw
    end; simpl.
    + eexists. split; [reflexivity|]. now apply wrote_write in Hw.
    + now apply write_bytes_raised in Hw.
Qed.

(** Whatever the extraction loop does, the list it leaves holds exactly the
    paths it has written. *)
Lemma extract_all_wrote zf series_dir members :
  forall files w,
    let r := TCIAClient.extract_all zf series_dir members files w in
    exists new, snd (fst r) = (files ++ new)%list /\ wrote w (snd r) new.
Proof.
  induction members as [|m rest IH]; intros files w; simpl.
  - exists []. rewrite app_nil_r. split; [reflexivity|apply wrote_nothing].
  - pose proof (extract_member_wrote zf series_dir files m w) as Hm.
    destruct (TCIAClient.extract_member zf series_dir files m w) as [[files'|e] w1];
      simpl in Hm.
    + destruct Hm as (n1 & -> & W1).
      destruct (IH (files ++ n1)%list w1) as (n2 & Hl & W2).
      exists (n1 ++ n2)%list. rewrite Hl, app_assoc.
      split; [reflexivity|]. eapply wrote_trans; eauto.
    + subst w1. simpl. exists []. rewrite app_nil_r.
      split; [reflexivity|apply wrote_nothing].
Qed.

(** The fallback writes the one file it adds to the list, or nothing. *)
Lemma save_single_wrote uid series_dir resp files w :
  let r := TCIAClient.save_single uid series_dir resp files w in
  match fst r with
  | Returned files' =>
      files' = (files ++ [path_join series_dir (uid ++ ".dcm")])%list /\
      wrote w (snd r) [path_join series_dir (uid ++ ".dcm")]
  | Raised _ => wrote w (snd r) []
  end.
Proof.
  unfold TCIAClient.save_single, bind, log, emit.
  match goal with |- context [write_bytes ?t ?d ?w1] =>
    set (w0 := w1); destruct (write_bytes t d w0) as [[[]|e] w2] eqn:Hw
  end; simpl.
  - split; [reflexivity|]. apply wrote_write in Hw.
    apply (wrote_trans w w0 w2 [] _); [|exact Hw].
    now apply (wrote_events w [_]).
  - apply write_bytes_raised in Hw. subst w2. now apply (wrote_events w [_]).
Qed.

Lemma extract_or_fallback_wrote uid series_dir resp w files w' :
  TCIAClient.extract_or_fallback E uid series_dir resp w = (Returned files, w') ->
  wrote w w' files.
Proof.
  unfold TCIAClient.extract_or_fallback.
  destruct (zip_open E (content resp)) as [zf|].
  - destruct (extract_all_wrote zf series_dir (namelist zf) [] w) as (new & Hl & W).
    destruct (TCIAClient.extract_all zf series_dir (namelist zf) [] w)
      as [[[u|e] fl] w1]; simpl in Hl, W; subst fl.
    + now intros [= <- <-].
    + destruct e; try discriminate.
      pose proof (save_single_wrote uid series_dir resp new w1) as W2.
      destruct (TCIAClient.save_single uid series_dir resp new w1) as [[fl|e] w2];
        simpl in W2; [|discriminate].
      destruct W2 as [-> W2]. intros [= <- <-]. eapply wrote_trans; eauto.
  - pose proof (save_single_wrote uid series_dir resp [] w) as W2.
    destruct (TCIAClient.save_single uid series_dir resp [] w) as [[fl|e] w2];
      simpl in W2; [|discriminate].
    destruct W2 as [-> W2]. now intros [= <- <-].
Qed.

(** Whatever the extraction does, no file of the staging area is lost. *)
Lemma extract_or_fallback_keeps_paths uid series_dir resp :
  keeps_paths (TCIAClient.extract_or_fallback E uid series_dir resp).
Proof.
  intros w o w' p. unfold TCIAClient.extract_or_fallback.
  assert (Hsave : forall fl w1 o1 w2,
            TCIAClient.save_single uid series_dir resp fl w1 = (o1, w2) ->
            is_Some (fs w1 !! p) -> is_Some (fs w2 !! p)).
  { intros fl w1 o1 w2 H. pose proof (save_single_wrote uid series_dir resp fl w1) as W.
    rewrite H in W. simpl in W. destruct o1; [destruct W as [_ W]|]; apply W. }
  destruct (zip_open E (content resp)) as [zf|]; [|apply Hsave].
  destruct (extract_all_wrote zf series_dir (namelist zf) [] w) as (new & Hl & (_ & _ & K)).
  destruct (TCIAClient.extract_all zf series_dir (namelist zf) [] w)
    as [[[u|e] fl] w1]; simpl in Hl, K.
  - intros [= <- <-]. apply K.
  - destruct e; try (intros [= <- <-]; apply K).
    intros H Hp. eapply Hsave; eauto.
Qed.

End DownloadEffects.

Lemma disk_untouched_refl w : disk_untouched w w.
Proof. repeat split. Qed.

Lemma disk_untouched_trans w1 w2 w3 :
  disk_untouched w1 w2 -> disk_untouched w2 w3 -> disk_untouched w1 w3.
Proof. intros (? & ? & ?) (? & ? & ?). repeat split; congruence. Qed.

Lemma disk_untouched_events w evs :
  writes_of evs = [] -> mkdirs_of evs = [] -> disk_untouched w (after_events w evs).
Proof.
  intros Hw Hm. repeat split; simpl.
  - now rewrite writes_of_app, Hw, app_nil_r.
  - now rewrite mkdirs_of_app, Hm, app_nil_r.
Qed.

Lemma disk_untouched_wrote w1 w2 w3 files :
  disk_untouched w1 w2 -> wrote w2 w3 files -> wrote w1 w3 files.
Proof.
  intros (Hf & Hw & _) (T & F & K). split; [|split].
  - now rewrite T, Hw.
  - exact F.
  - intros p Hp. apply K. now rewrite Hf.
Qed.

Lemma connect_or_timeout_is_HTTPError e :
  is_connect_or_timeout e = true -> is_HTTPError e = true.
Proof. now destruct e. Qed.

Section DownloadOutcome.
Context (E : environment).

(** What one attempt leaves on disk: the files it returns, or nothing at
    all when it failed over HTTP. *)
Lemma download_once_effect uid dir w o w' :
  TCIAClient.download_series_once E uid dir w = (o, w') ->
  match o with
  | Returned files => wrote w w' files
  | Raised e => is_HTTPError e = true -> disk_untouched w w'
  end.
Proof.
  rewrite download_series_once_run.
  destruct (send_following E (GetImage uid) _) as [[resp|e] w1] eqn:Hsend;
    apply send_following_run in Hsend as (Ht & Hf & _ & _);
    cbn [trace fs after_events] in Ht, Hf.
  - destruct (status_2xx resp).
    + destruct (TCIAClient.extract_or_fallback E uid _ resp _) as [[files|e] w2] eqn:Hx.
      * intros [= <- <-]. apply extract_or_fallback_wrote in Hx.
        destruct Hx as (T & F & K). cbn [trace fs after_events] in T, K.
        split; [|split].
        -- cbn [trace after_events].
           rewrite writes_of_app, T, writes_of_app, Ht, !writes_of_app. simpl.
           now rewrite !app_nil_r.
        -- exact F.
        -- intros p Hp. cbn [fs after_events]. apply K. now rewrite Hf.
      * intros [= <- <-] He. apply raises_only_extract_or_fallback in Hx.
        destruct Hx as [-> | [-> | ->]]; discriminate.
    + intros [= <- <-] _. repeat split; cbn [trace fs after_events]; [exact Hf| |];
        rewrite ?writes_of_app, ?mkdirs_of_app, Ht, ?writes_of_app, ?mkdirs_of_app;
        simpl; now rewrite ?app_nil_r.
  - intros [= <- <-] _. repeat split; cbn [trace fs after_events]; [exact Hf| |];
      rewrite ?writes_of_app, ?mkdirs_of_app, Ht, ?writes_of_app, ?mkdirs_of_app;
      simpl; now rewrite ?app_nil_r.
Qed.

Lemma download_retry_effect uid dir remaining :
  forall k w o w',
    retry_loop is_connect_or_timeout (wait_exponential 2 4 30) remaining k
      (TCIAClient.download_series_once E uid dir) w = (o, w') ->
    match o with
    | Returned files => wrote w w' files
    | Raised e => is_HTTPError e = true -> disk_untouched w w'
    end.
Proof.
  induction remaining as [|n IH]; intros k w o w' H;
    destruct (TCIAClient.download_series_once E uid dir w) as [[files|e] w1] eqn:Hf.
  - rewrite (retry_loop_returned _ _ _ _ _ _ _ _ Hf) in H. injection H as <- <-.
    apply (download_once_effect _ _ _ _ _ Hf).
  - rewrite (retry_loop_stop _ _ _ _ _ _ _ Hf) in H. injection H as <- <-.
    apply (download_once_effect _ _ _ _ _ Hf).
  - rewrite (retry_loop_returned _ _ _ _ _ _ _ _ Hf) in H. injection H as <- <-.
    apply (download_once_effect _ _ _ _ _ Hf).
  - destruct (is_connect_or_timeout e) eqn:He.
    + rewrite (retry_loop_again _ _ _ (wait_exponential_nonneg 2 4 30) _ _ _ _ _ Hf He) in H.
      pose proof (download_once_effect _ _ _ _ _ Hf (connect_or_timeout_is_HTTPError _ He))
        as D1.
      assert (D2 : disk_untouched w
                (after_events w1 [EvSleep (inject_Z (wait_exponential 2 4 30 k))])).
      { eapply disk_untouched_trans; [exact D1|].
        now apply disk_untouched_events. }
      specialize (IH _ _ _ _ H). destruct o as [files|e'].
      * eapply disk_untouched_wrote; eauto.
      * intros He'. eapply disk_untouched_trans; eauto.
    + rewrite (retry_loop_not_retried _ _ _ _ _ _ _ _ Hf He) in H. injection H as <- <-.
      apply (download_once_effect _ _ _ _ _ Hf).
Qed.

(** X8: The list a download returns is exactly the list of the paths it has
    written, in the order of writing; each of them exists afterwards, and
    no file that existed before is lost. *)
Theorem download_returns_what_it_wrote uid dir w files w' :
  TCIAClient.download_series E uid dir w = (Returned files, w') ->
  writes_of (trace w') = (writes_of (trace w) ++ files)%list /\
  Forall (fun p => is_Some (fs w' !! p)) files /\
  (forall p, is_Some (fs w !! p) -> is_Some (fs w' !! p)).
Proof.
  intros H. apply (download_retry_effect uid dir _ _ _ _ _ H).
Qed.

(** X9: A download that fails over HTTP -- a refused or timed-out connection
    after the last attempt, or a status outside 2xx -- leaves nothing
    behind: no directory was created and no file written. *)
Theorem failed_download_leaves_no_file uid dir w e w' :
  TCIAClient.download_series E uid dir w = (Raised e, w') ->
  is_HTTPError e = true ->
  fs w' = fs w /\
  writes_of (trace w') = writes_of (trace w) /\
  mkdirs_of (trace w') = mkdirs_of (trace w).
Proof.
  intros H He. apply (download_retry_effect uid dir _ _ _ _ _ H He).
Qed.

End DownloadOutcome.

Section DownloadEdges.
Context (E : environment).


Lemma download_once_keeps_paths uid dir :
  keeps_paths (TCIAClient.download_series_once E uid dir).
Proof.
  intros w o w' p. rewrite download_series_once_run.
  destruct (send_following E (GetImage uid) _) as [[resp|e] w1] eqn:Hsend;
    apply send_following_run in Hsend as (_ & Hf & _ & _);
    cbn [fs after_events] in Hf.
  - destruct (status_2xx resp).
    + match goal with |- context [TCIAClient.extract_or_fallback E uid ?d resp ?w2] =>
        pose proof (extract_or_fallback_keeps_paths E uid d resp w2) as K;
        destruct (TCIAClient.extract_or_fallback E uid d resp w2) as [[files|e] w3] eqn:Hx
      end; intros [= <- <-] Hp; cbn [fs after_events];
        apply (K _ _ p eq_refl); cbn [fs after_events]; now rewrite Hf.
    + intros [= <- <-]. cbn [fs after_events]. now rewrite Hf.
  - intros [= <- <-]. cbn [fs after_events]. now rewrite Hf.
Qed.

Lemma download_retry_keeps_paths uid dir remaining :
  forall k,
    keeps_paths (retry_loop is_connect_or_timeout (wait_exponential 2 4 30) remaining k
                   (TCIAClient.download_series_once E uid dir)).
Proof.
  induction remaining as [|n IH]; intros k w o w' p H Hp;
    destruct (TCIAClient.download_series_once E uid dir w) as [[files|e] w1] eqn:Hf;
    pose proof (download_once_keeps_paths uid dir _ _ _ p Hf Hp) as Hp1.
  - rewrite (retry_loop_returned _ _ _ _ _ _ _ _ Hf) in H. now injection H as <- <-.
  - rewrite (retry_loop_stop _ _ _ _ _ _ _ Hf) in H. now injection H as <- <-.
  - rewrite (retry_loop_returned _ _ _ _ _ _ _ _ Hf) in H. now injection H as <- <-.
  - destruct (is_connect_or_timeout e) eqn:He.
    + rewrite (retry_loop_again _ _ _ (wait_exponential_nonneg 2 4 30) _ _ _ _ _ Hf He) in H.
      apply (IH _ _ _ _ p H). exact Hp1.
    + rewrite (retry_loop_not_retried _ _ _ _ _ _ _ _ Hf He) in H.
      now injection H as <- <-.
Qed.

Lemma download_series_keeps_paths uid dir :
  keeps_paths (TCIAClient.download_series E uid dir).
Proof. apply download_retry_keeps_paths. Qed.

(** Every file the download loop has collected exists when the loop ends,
    whatever happened to the series that came after it. *)
Lemma download_loop_files_exist dir selected :
  forall acc w,
    Forall (fun p => is_Some (fs w !! p)) acc ->
    let r := for_each selected (Bootstrap.download_selected E dir) acc w in
    Forall (fun p => is_Some (fs (snd r) !! p)) (files_of (fst r)) /\
    (forall p, is_Some (fs w !! p) -> is_Some (fs (snd r) !! p)).
Proof.
  induction selected as [|s rest IH]; intros acc w Hacc.
  - simpl. auto.
  - cbn [for_each]. unfold bind.
    destruct (Bootstrap.download_selected E dir acc s w) as [[acc1|e] w1] eqn:Hs.
    2:{ rewrite download_selected_run in Hs. discriminate. }
    assert (Forall (fun p => is_Some (fs w1 !! p)) acc1 /\
            (forall p, is_Some (fs w !! p) -> is_Some (fs w1 !! p))) as [Hacc1 K1].
    { revert Hs. unfold Bootstrap.download_selected.
      destruct (bool_decide _).
      - intros [= <- <-]. simpl. auto.
      - unfold try_except, bind.
        destruct (TCIAClient.download_series E _ dir w) as [[files|e] w2] eqn:Hd.
        + intros [= <- <-].
          destruct (download_retry_effect E _ _ _ _ _ _ _ Hd) as (_ & F & K).
          split; [|exact K]. apply Forall_app. split; [|exact F].
          eapply Forall_impl; [exact Hacc|]. intros p. apply K.
        + rewrite (raises_only_download_series _ _ _ _ _ _ Hd).
          intros [= <- <-]. simpl.
          pose proof (fun p => download_series_keeps_paths _ dir _ _ _ p Hd) as K.
          split; [|exact K]. eapply Forall_impl; [exact Hacc|]. intros p. apply K. }
    destruct (IH acc1 w1 Hacc1) as [F2 K2]. split; [exact F2|].
    intros p Hp. now apply K2, K1.
Qed.

End DownloadEdges.

(** ** Further properties: the events of the stages *)

Section StageEvents.
Context (E : environment).

Lemma appends_extract_all (ok : event -> Prop) zf series_dir members :
  (forall p, ok (EvWrite p)) ->
  forall files w,
    exists evs,
      trace (snd (TCIAClient.extract_all zf series_dir members files w)) =
        (trace w ++ evs)%list /\ Forall ok evs.
Proof.
  intros Hw. induction members as [|m rest IH]; intros files w; simpl.
  - exists []. now rewrite app_nil_r.
  - assert (Hm : appends ok (TCIAClient.extract_member zf series_dir files m)).
    { unfold TCIAClient.extract_member. destruct (endswith_slash m); [apply appends_ret|].
      apply appends_bind.
      - destruct (zread zf m); [apply appends_ret|apply appends_raise|apply appends_raise].
      - intros data. apply appends_bind; [apply appends_write_bytes, Hw|].
        intros _. apply appends_ret. }
    destruct (TCIAClient.extract_member zf series_dir files m w) as [[fl|e] w1] eqn:Hx;
      destruct (Hm _ _ _ Hx) as (e1 & T1 & F1).
    + destruct (IH fl w1) as (e2 & T2 & F2).
      exists (e1 ++ e2)%list. rewrite T2, T1, app_assoc.
      split; [reflexivity|now apply Forall_app].
    + exists e1. auto.
Qed.

Lemma appends_save_single (ok : event -> Prop) uid series_dir resp files :
  (forall p, ok (EvWrite p)) -> (forall l s, ok (EvLog l s)) ->
  appends ok (TCIAClient.save_single uid series_dir resp files).
Proof.
  intros Hw Hl. unfold TCIAClient.save_single.
  apply appends_bind; [apply appends_emit, Hl|]. intros _.
  apply appends_bind; [apply appends_write_bytes, Hw|]. intros _. apply appends_ret.
Qed.

Lemma appends_extract_or_fallback (ok : event -> Prop) uid series_dir resp :
  (forall p, ok (EvWrite p)) -> (forall l s, ok (EvLog l s)) ->
  appends ok (TCIAClient.extract_or_fallback E uid series_dir resp).
Proof.
  intros Hw Hl w o w'. unfold TCIAClient.extract_or_fallback.
  destruct (zip_open E (content resp)) as [zf|].
  - destruct (appends_extract_all ok zf series_dir (namelist zf) Hw [] w) as (e1 & T1 & F1).
    destruct (TCIAClient.extract_all zf series_dir (namelist zf) [] w)
      as [[[u|e] fl] w1]; simpl in T1.
    + intros [= <- <-]. eauto.
    + assert (Hs := appends_save_single ok uid series_dir resp fl Hw Hl w1).
      destruct e; try (intros [= <- <-]; solve [eauto]).
      intros H. destruct (Hs _ _ H) as (e2 & T2 & F2).
      exists (e1 ++ e2)%list. rewrite T2, T1, app_assoc.
      split; [reflexivity|now apply Forall_app].
  - apply appends_save_single; auto.
Qed.

Lemma appends_download_series uid dir :
  appends (download_event uid) (TCIAClient.download_series E uid dir).
Proof.
  unfold TCIAClient.download_series, retry. apply appends_retry_loop.
  - unfold TCIAClient.download_series_once.
    apply appends_bind; [now apply appends_emit|]. intros _.
    apply appends_bind.
    + apply appends_bind; [now apply appends_emit|]. intros _.
      apply appends_try_finally; [|now apply appends_emit].
      apply appends_bind; [now apply appends_send_following|]. intros resp.
      apply appends_bind; [apply appends_raise_for_status|]. intros _.
      apply appends_ret.
    + intros resp. apply appends_bind; [now apply appends_emit|]. intros _.
      apply appends_bind; [now apply appends_extract_or_fallback|]. intros files.
      apply appends_bind; [now apply appends_emit|]. intros _. apply appends_ret.
  - intros a Ha. assert (a = 1 \/ a = 2) as [-> | ->] by (simpl in Ha; lia);
      reflexivity.
Qed.

Lemma appends_download_selected dir acc series_meta :
  appends loop_event (Bootstrap.download_selected E dir acc series_meta).
Proof.
  unfold Bootstrap.download_selected. destruct (bool_decide _).
  - apply appends_bind; [|intros _; apply appends_ret].
    apply appends_emit. now exists "".
  - apply appends_try_except.
    + apply appends_bind; [|intros files; apply appends_ret].
      eapply appends_weaken; [|apply appends_download_series].
      intros ev Hev. eexists. exact Hev.
    + intros e. apply appends_bind; [|intros _; apply appends_ret].
      apply appends_emit. now exists "".
Qed.

Lemma appends_get_series (ok : event -> Prop) collection :
  ok (EvRequest (GetSeries collection)) ->
  appends ok (TCIAClient.get_series E collection).
Proof.
  intros H. unfold TCIAClient.get_series.
  apply appends_bind; [now apply appends_send_following|]. intros resp.
  apply appends_bind; [apply appends_raise_for_status|]. intros _.
  apply appends_resp_json.
Qed.

Lemma appends_print_summary (ok : event -> Prop) stats :
  ok (EvRequest GetStatistics) -> appends ok (Bootstrap._print_summary E stats).
Proof.
  intros H. unfold Bootstrap._print_summary.
  apply appends_bind; [now apply appends_get_statistics|]. intros server_stats.
  apply appends_bind.
  - unfold Bootstrap.py_int. destruct (default _ _) as [|b|n|s];
      try apply appends_ret; try apply appends_raise.
    destruct (int_of_str E s); [apply appends_ret|apply appends_raise].
  - intros disk_bytes. apply appends_bind; [|intros _; apply appends_ret].
    unfold Bootstrap.py_truediv.
    destruct (_ <=? _)%Z; [apply appends_raise|apply appends_ret].
Qed.

Lemma appends_push_files files :
  appends upload_event (Bootstrap._push_files_to_orthanc E files).
Proof.
  unfold Bootstrap._push_files_to_orthanc. apply appends_for_each. intros acc p.
  unfold Bootstrap.push_file. apply appends_try_except.
  - apply appends_bind; [apply appends_upload_dicom_file|]. intros result.
    destruct (py_eq_str _ _); apply appends_ret.
  - intros e. apply appends_bind; [now apply appends_emit|].
    intros _. apply appends_ret.
Qed.

Lemma appends_wait (N : Z) (delay : Q) :
  appends (wait_event delay) (Bootstrap._wait_for_orthanc E N delay).
Proof.
  intros w o w' H. unfold Bootstrap._wait_for_orthanc in H.
  destruct (poll_loop_traffic E delay _ _ _ _ H) as (_ & evs & Ht & Hall & _).
  eauto.
Qed.

End StageEvents.

(** ** Further properties: the run as a whole *)

Lemma closes_after {A} (m : M A) (k : A -> M unit) :
  appends (fun ev => ev <> EvClose OrthancConn) m ->
  (forall a, closes_orthanc_iff_returns (k a)) ->
  closes_orthanc_iff_returns (bind m k).
Proof.
  intros Hm Hk w o w'. unfold bind.
  destruct (m w) as [[a|e] w1] eqn:Em; destruct (Hm _ _ _ Em) as (e1 & T1 & F1).
  - intros H. destruct (Hk _ _ _ _ H) as (e2 & T2 & Hiff).
    exists (e1 ++ e2)%list. rewrite T2, T1, app_assoc. split; [reflexivity|].
    rewrite in_app_iff, <- Hiff. split; [|auto].
    intros [Hin|Hin]; [|exact Hin]. exfalso.
    rewrite List.Forall_forall in F1. now apply (F1 _ Hin).
  - intros [= <- <-]. exists e1. split; [exact T1|]. split; [|discriminate].
    intros Hin. exfalso. rewrite List.Forall_forall in F1. now apply (F1 _ Hin).
Qed.

Lemma closes_never_when_exiting msg :
  closes_orthanc_iff_returns (log ERROR msg ;; sys_exit 1)%py.
Proof.
  intros w o w' [= <- <-]. eexists. split; [reflexivity|].
  split; [|discriminate]. simpl. intros [H|[]]. discriminate.
Qed.

Lemma two_phases_first {A} first second (m : M A) (k : A -> M unit) :
  appends first m ->
  (forall a, in_two_phases first second (k a)) ->
  in_two_phases first second (bind m k).
Proof.
  intros Hm Hk w o w'. unfold bind.
  destruct (m w) as [[a|e] w1] eqn:Em; destruct (Hm _ _ _ Em) as (e1 & T1 & F1).
  - intros H. destruct (Hk _ _ _ _ H) as (b & a' & T2 & Fb & Fa).
    exists (e1 ++ b)%list, a'. rewrite T2, T1, <- !app_assoc.
    split; [reflexivity|]. split; [now apply Forall_app|exact Fa].
  - intros [= <- <-]. exists e1, []. rewrite app_nil_r. auto.
Qed.

Lemma two_phases_second first second (m : M unit) :
  appends second m -> in_two_phases first second m.
Proof.
  intros Hm w o w' H. destruct (Hm _ _ _ H) as (e1 & T1 & F1).
  exists [], e1. auto.
Qed.

Lemma two_phases_only_first first second (m : M unit) :
  appends first m -> in_two_phases first second m.
Proof.
  intros Hm w o w' H. destruct (Hm _ _ _ H) as (e1 & T1 & F1).
  exists e1, []. rewrite app_nil_r. auto.
Qed.

Section WholeRun.
Context (E : environment).

Lemma appends_run_upload files :
  appends upload_stage_event (Bootstrap.run_upload E files).
Proof.
  unfold Bootstrap.run_upload.
  apply appends_bind; [apply appends_emit; now left|]. intros _.
  apply appends_bind.
  { eapply appends_weaken; [|apply appends_push_files]. intros ev H. now left. }
  intros stats. apply appends_bind.
  { apply appends_print_summary. right. now left. }
  intros _. apply appends_bind; [apply appends_emit; right; now right|].
  intros _. apply appends_ret.
Qed.

Lemma run_upload_closes files :
  closes_orthanc_iff_returns (Bootstrap.run_upload E files).
Proof.
  unfold Bootstrap.run_upload.
  apply closes_after; [now apply appends_emit|]. intros _.
  apply closes_after.
  { eapply appends_weaken; [|apply appends_push_files].
    intros ev Hev ->. exact Hev. }
  intros stats. apply closes_after; [now apply appends_print_summary|]. intros _.
  intros w o w' [= <- <-]. eexists. split; [reflexivity|]. simpl. tauto.
Qed.

Lemma run_download_closes max_series dir series_list :
  closes_orthanc_iff_returns (Bootstrap.run_download E max_series dir series_list).
Proof.
  unfold Bootstrap.run_download.
  apply closes_after; [now apply appends_emit|]. intros _.
  apply closes_after.
  { apply appends_for_each. intros acc s.
    eapply appends_weaken; [|apply appends_download_selected].
    intros ev (uid & Hev) ->. simpl in Hev. discriminate. }
  intros files. apply closes_after; [now apply appends_emit|]. intros _.
  destruct files; [apply closes_never_when_exiting|apply run_upload_closes].
Qed.

(** X13: The Orthanc connection is closed exactly when the run returns: every
    run that ends by [sys.exit] or by an error -- also one raised by the
    summary, after all uploads -- leaves it open. *)
Theorem orthanc_closed_iff_run_returns collection max_series dir w :
  let r := Bootstrap.run E collection max_series dir w in
  exists evs,
    trace (snd r) = (trace w ++ evs)%list /\
    (In (EvClose OrthancConn) evs <-> fst r = Returned tt).
Proof.
  intros r.
  assert (H : closes_orthanc_iff_returns (Bootstrap.run E collection max_series dir)).
  { unfold Bootstrap.run.
    apply closes_after; [now apply appends_emit|]. intros _.
    apply closes_after; [now apply appends_emit|]. intros _.
    apply closes_after.
    { eapply appends_weaken; [|apply appends_wait]. intros ev Hev ->. exact Hev. }
    intros _. apply closes_after; [now apply appends_emit|]. intros _.
    apply closes_after.
    { apply appends_try_except; [now apply appends_get_series|]. intros e.
      apply appends_bind; [now apply appends_emit|]. intros _. apply appends_raise. }
    intros series_list.
    destruct series_list; [apply closes_never_when_exiting|apply run_download_closes]. }
  unfold r. destruct (Bootstrap.run E collection max_series dir w) as [o w'] eqn:Hr.
  apply (H _ _ _ Hr).
Qed.

(** X14: The run stages its work: whatever happens, every download request and
    every write to the staging area comes before the first upload request.
    Once the upload stage has started, nothing is downloaded or written. *)
Theorem downloads_precede_uploads collection max_series dir w :
  let r := Bootstrap.run E collection max_series dir w in
  exists before after,
    trace (snd r) = (trace w ++ before ++ after)%list /\
    Forall (fun ev => ~ is_upload_request ev) before /\
    Forall (fun ev => ~ is_download_activity ev) after.
Proof.
  intros r.
  set (first := fun ev => ~ is_upload_request ev).
  set (second := fun ev => ~ is_download_activity ev).
  assert (H : in_two_phases first second (Bootstrap.run E collection max_series dir)).
  { unfold Bootstrap.run.
    apply two_phases_first; [apply appends_emit; now intros []|]. intros _.
    apply two_phases_first; [apply appends_emit; now intros []|]. intros _.
    apply two_phases_first.
    { eapply appends_weaken; [|apply appends_wait].
      intros ev Hev Hu. destruct ev as [| |[]| | | | |]; simpl in *; auto. }
    intros _. apply two_phases_first; [apply appends_emit; now intros []|]. intros _.
    apply two_phases_first.
    { apply appends_try_except; [apply appends_get_series; now intros []|]. intros e.
      apply appends_bind; [apply appends_emit; now intros []|].
      intros _. apply appends_raise. }
    intros series_list. destruct series_list.
    { apply two_phases_only_first.
      apply appends_bind; [apply appends_emit; now intros []|].
      intros _. apply appends_raise. }
    unfold Bootstrap.run_download.
    apply two_phases_first; [apply appends_emit; now intros []|]. intros _.
    apply two_phases_first.
    { apply appends_for_each. intros acc s.
      eapply appends_weaken; [|apply appends_download_selected].
      intros ev (uid & Hev) Hu. destruct ev as [| |[]| | | | |]; simpl in *; auto. }
    intros files. apply two_phases_first; [apply appends_emit; now intros []|].
    intros _. destruct files.
    { apply two_phases_only_first.
      apply appends_bind; [apply appends_emit; now intros []|].
      intros _. apply appends_raise. }
    apply two_phases_second.
    eapply appends_weaken; [|apply appends_run_upload].
    intros ev [Hev|[->| ->]] Hd; simpl in *; auto.
    destruct ev as [| |[]| | | | |]; simpl in *; auto. }
  unfold r. destruct (Bootstrap.run E collection max_series dir w) as [o w'] eqn:Hr.
  apply (H _ _ _ Hr).
Qed.

End WholeRun.

Section RunEdges.
Context (E : environment).

Lemma staged_all (w : world) (files : list path) :
  Forall (fun p => is_Some (fs w !! p)) files ->
  Forall2 (fun p data => fs w !! p = Some data) files (staged w files).
Proof.
  intros H. induction H as [|p files [data Hp] _ IH]; [constructor|].
  rewrite (staged_cons w p files), staged_one, Hp. now constructor.
Qed.

(** X12: Every file the download loop has collected is in the staging area
    when the loop ends.  In any later state with the same files the upload
    stage therefore reads each of them: its requests are, file by file in
    the order of the collection, the bytes the file has at the end of the
    loop, posted at least once and at most three times; no collected file
    is left out, and none fails for being absent. *)
Theorem collected_files_are_sent dir (selected : list (gmap string string)) w w2 :
  let loop := for_each selected (Bootstrap.download_selected E dir) [] w in
  let files := files_of (fst loop) in
  fs w2 = fs (snd loop) ->
  exists sent : list (bytes * nat),
    Forall2 (fun p c => fs (snd loop) !! p = Some (fst c)) files sent /\
    Forall (fun c => 1 <= snd c <= 3) sent /\
    requests_of (trace (snd (Bootstrap._push_files_to_orthanc E files w2))) =
      (requests_of (trace w2) ++ upload_requests sent)%list.
Proof.
  intros loop files Hfs.
  destruct (download_loop_files_exist E dir selected [] w) as [Hex _]; [constructor|].
  fold loop in Hex. fold files in Hex. rewrite <- Hfs in Hex |- *.
  unfold Bootstrap._push_files_to_orthanc.
  destruct (for_each files (Bootstrap.push_file E) Bootstrap.stats0 w2) as [o w3] eqn:H.
  destruct (push_files_sent E _ _ _ _ _ H) as (sent & Hm & Hn & Hr & _).
  exists sent. split; [|split; assumption].
  apply staged_all in Hex. rewrite <- Hm in Hex. clear -Hex.
  revert sent Hex. induction files as [|p files IH]; intros sent Hex.
  - destruct sent; [constructor|inversion Hex].
  - destruct sent as [|c sent]; [inversion Hex|].
    inversion Hex; subst. constructor; auto.
Qed.

(** A metadata query is one call of the client: one request, and the
    requests of the redirects the client follows. *)
Lemma get_series_run collection w o w' :
  TCIAClient.get_series E collection w = (o, w') ->
  trace w' = (trace w ++ [EvRequest (GetSeries collection)])%list /\
  fs w' = fs w /\
  nreq w < nreq w' <= nreq w + S max_redirects.
Proof.
  unfold TCIAClient.get_series, bind.
  destruct (send_following E (GetSeries collection) w) as [[resp|e] w1] eqn:Hs;
    apply send_following_run in Hs as (Ht & Hf & Hn & _).
  - unfold raise_for_status. destruct (status_2xx resp).
    + unfold resp_json. destruct (json_series E (content resp)); now intros [= _ <-].
    + now intros [= _ <-].
  - now intros [= _ <-].
Qed.



(** X16: Asking for no series at all -- [max_series] zero, or so negative that
    the slice is empty -- is fatal whatever the collection holds: no
    download is attempted, the archive connection is closed, and the run
    ends by [sys.exit(1)]. *)
Theorem no_series_selected_is_fatal max_series dir (series_list : list (gmap string string)) w :
  (max_series = 0 \/ max_series <= - Z.of_nat (length series_list))%Z ->
  Bootstrap.run_download E max_series dir series_list w =
    (Raised (SystemExit 1),
     after_events w
       [EvLog INFO "Found %d series in collection '%s'. Downloading up to %d.";
        EvClose TciaConn;
        EvLog ERROR "No DICOM files were downloaded. Aborting upload."]).
Proof.
  intros H.
  assert (Hsel : py_slice_to series_list max_series = []).
  { unfold py_slice_to. destruct (0 <=? max_series)%Z eqn:Hle.
    - apply Z.leb_le in Hle.
      destruct H as [-> | H]; [reflexivity|].
      assert (series_list = []) as -> by (destruct series_list; [reflexivity|simpl in H; lia]).
      now rewrite take_nil.
    - apply Z.leb_gt in Hle. destruct H as [-> | H]; [lia|].
      replace (length series_list - Z.to_nat (- max_series)) with 0 by lia.
      reflexivity. }
  unfold Bootstrap.run_download. rewrite Hsel.
  unfold after_events. cbn. now rewrite <- !app_assoc.
Qed.



(** X18: A statistics query is one request, and the Orthanc client follows
    no redirect: whatever is answered outside 2xx, a redirect included,
    raises [HTTPStatusError] with its status.  A metadata query is one call
    of the archive client, which follows redirects: it takes between 1 and
    21 requests, a redirect that leads to a reply in 2xx returns what that
    reply holds, and a final reply outside 2xx raises [HTTPStatusError].
    Neither query is retried; what they raise is an [httpx.HTTPError] or
    the decoding error, and the files are left alone. *)
Theorem queries_are_single_requests collection w :
  let s := TCIAClient.get_series E collection w in
  let t := OrthancClient.get_statistics E w in
  snd t = after_request w GetStatistics /\
  (trace (snd s) = (trace w ++ [EvRequest (GetSeries collection)])%list /\
   fs (snd s) = fs w /\
   nreq w + 1 <= nreq (snd s) <= nreq w + 21) /\
  (forall resp, net E (nreq w) GetStatistics = NetReply resp ->
                status_2xx resp = false ->
                fst t = Raised (HTTPStatusError (status_code resp))) /\
  (forall resp location, net E (nreq w) GetStatistics = NetRedirect resp location ->
                status_2xx resp = false ->
                fst t = Raised (HTTPStatusError (status_code resp))) /\
  (forall resp, net E (nreq w) (GetSeries collection) = NetReply resp ->
                status_2xx resp = false ->
                s = (Raised (HTTPStatusError (status_code resp)),
                     after_request w (GetSeries collection))) /\
  (forall resp location resp' series_list,
      net E (nreq w) (GetSeries collection) = NetRedirect resp location ->
      redirect_status resp = true ->
      net E (S (nreq w)) (GetLocation location) = NetReply resp' ->
      status_2xx resp' = true ->
      json_series E (content resp') = Some series_list ->
      fst s = Returned series_list /\ nreq (snd s) = nreq w + 2) /\
  (forall e, fst s = Raised e -> is_HTTPError e = true \/ e = JSONDecodeError) /\
  (forall e, fst t = Raised e -> is_HTTPError e = true \/ e = JSONDecodeError).
Proof.
  intros s t. unfold s, t. rewrite get_statistics_run. cbn [fst snd].
  split; [reflexivity|]. split; [|split; [|split; [|split; [|split; [|split]]]]].
  - destruct (TCIAClient.get_series E collection w) as [o w'] eqn:Hq.
    apply get_series_run in Hq as (Ht & Hf & Hn). cbn [snd].
    unfold max_redirects in Hn. repeat split; try assumption; lia.
  - intros resp Hn Hs. unfold statistics_at, OrthancClient.get_statistics, bind, send.
    cbn [nreq fresh_world]. rewrite Hn. unfold raise_for_status. now rewrite Hs.
  - intros resp location Hn Hs.
    unfold statistics_at, OrthancClient.get_statistics, bind, send.
    cbn [nreq fresh_world]. rewrite Hn. unfold raise_for_status. now rewrite Hs.
  - intros resp Hn Hs. unfold TCIAClient.get_series, bind.
    rewrite (send_following_reply E _ _ resp Hn).
    unfold raise_for_status. now rewrite Hs.
  - intros resp location resp' series_list Hn Hr Hn' Hs' Hj.
    unfold TCIAClient.get_series, bind, send_following, max_redirects.
    rewrite Hn. cbn [follow]. rewrite Hr. cbn [nreq]. rewrite Hn'. cbn [follow ret].
    unfold raise_for_status. rewrite Hs'. cbn [ret]. unfold resp_json. rewrite Hj.
    cbn. split; [reflexivity|lia].
  - intros e.
    destruct (TCIAClient.get_series E collection w) as [o w'] eqn:Hq. cbn [fst].
    intros ->. revert Hq. unfold TCIAClient.get_series, bind.
    destruct (send_following E (GetSeries collection) w) as [[resp|e0] w1] eqn:Hs.
    + unfold raise_for_status. destruct (status_2xx resp).
      * unfold resp_json. destruct (json_series E (content resp));
          [discriminate|]. intros [= <- _]. now right.
      * intros [= <- _]. now left.
    + intros [= <- _]. left. now apply raises_only_send_following in Hs.
  - intros e He. unfold statistics_at in He.
    destruct (OrthancClient.get_statistics E (fresh_world (nreq w))) as [o w'] eqn:Hq.
    cbn [fst] in He. subst o. revert Hq.
    unfold OrthancClient.get_statistics. intros Hq.
    assert (Hr : raises_only (fun e => is_HTTPError e = true \/ e = JSONDecodeError)
                   (resp <- send E GetStatistics ;; raise_for_status resp ;;
                    resp_json (json_object E) resp)%py).
    { apply raises_only_bind.
      - eapply raises_only_weaken; [|apply raises_only_send]. auto.
      - intros resp. apply raises_only_bind.
        + eapply raises_only_weaken; [|apply raises_only_raise_for_status]. auto.
        + intros _. apply raises_only_resp_json. auto. }
    apply (Hr _ _ _ Hq).
Qed.

End RunEdges.

(** ** Further properties: the connectivity check *)

Section Verify.
Context (E : environment).





End Verify.

(** ** Instances of the further properties *)

Lemma missing_file_counts_as_failed_witness :
  Bootstrap.push_file E_refused Bootstrap.stats0 ["a.dcm"] (fresh_world 0) =
    (Returned {| uploaded := 0; already_stored := 0; failed := 1 |},
     after_events (fresh_world 0) [EvLog ERROR "Failed to upload %s"]).
Proof.
  apply (missing_file_counts_as_failed E_refused Bootstrap.stats0 ["a.dcm"] (fresh_world 0)).
  reflexivity.
Defined.

Lemma readiness_wait_without_attempts_witness :
  Bootstrap._wait_for_orthanc E_refused 0 5 (fresh_world 0) =
    (Raised (SystemExit 1),
     after_events (fresh_world 0)
       [EvLog ERROR "Orthanc did not become available after %d attempts."]).
Proof.
  apply (readiness_wait_without_attempts E_refused 5 0 (fresh_world 0)). lia.
Defined.




Lemma download_returns_what_it_wrote_witness :
  exists w',
    writes_of (trace w') =
      [["data"; "1.2.840"; "a.dcm"]; ["data"; "1.2.840"; "a.dcm"];
       ["data"; "1.2.840"; "b.dcm"]] /\
    is_Some (fs w' !! ["data"; "1.2.840"; "b.dcm"]).
Proof.
  eexists.
  destruct (download_returns_what_it_wrote E_sample_archive "1.2.840" ["data"]
              (fresh_world 0) _ _ ltac:(vm_compute; reflexivity)) as (Hw & Hex & _).
  split; [exact Hw|].
  inversion Hex as [|? ? _ Hex']; subst. inversion Hex' as [|? ? _ Hex'']; subst.
  inversion Hex'' as [|? ? Hb _]; subst. exact Hb.
Defined.

Lemma failed_download_leaves_no_file_witness :
  exists w',
    TCIAClient.download_series E_always_404 "1.2.840" ["data"] (fresh_world 0) =
      (Raised (HTTPStatusError 404), w') /\
    fs w' = ∅ /\ mkdirs_of (trace w') = [].
Proof.
  eexists. split; [vm_compute; reflexivity|].
  destruct (failed_download_leaves_no_file E_always_404 "1.2.840" ["data"]
              (fresh_world 0) (HTTPStatusError 404) _ ltac:(vm_compute; reflexivity)
              eq_refl) as (Hfs & _ & Hm).
  split; [exact Hfs|exact Hm].
Defined.



Lemma collected_files_are_sent_witness :
  let loop := for_each [ {[ "SeriesInstanceUID" := "1.2.840" ]} ]
                (Bootstrap.download_selected E_sample_archive ["data"]) []
                (fresh_world 0) in
  exists sent : list (bytes * nat),
    Forall2 (fun p c => fs (snd loop) !! p = Some (fst c))
      [["data"; "1.2.840"; "a.dcm"]; ["data"; "1.2.840"; "a.dcm"];
       ["data"; "1.2.840"; "b.dcm"]] sent /\
    requests_of (trace (snd (Bootstrap._push_files_to_orthanc E_sample_archive
                               [["data"; "1.2.840"; "a.dcm"]; ["data"; "1.2.840"; "a.dcm"];
                                ["data"; "1.2.840"; "b.dcm"]] (snd loop)))) =
      (requests_of (trace (snd loop)) ++ upload_requests sent)%list.
Proof.
  intros loop.
  destruct (collected_files_are_sent E_sample_archive ["data"]
              [ {[ "SeriesInstanceUID" := "1.2.840" ]} ] (fresh_world 0)
              (snd loop) eq_refl) as (sent & Hall & _ & Hr).
  exists sent. split; [exact Hall|exact Hr].
Defined.


Lemma no_series_selected_is_fatal_witness :
  fst (Bootstrap.run_download E_five_series 0 ["data"] five_series (fresh_world 0))
    = Raised (SystemExit 1).
Proof.
  rewrite (no_series_selected_is_fatal E_five_series 0 ["data"] five_series (fresh_world 0)).
  - reflexivity.
  - left. reflexivity.
Defined.

(** ** The model on the edges of the file system and of the network *)

(** A series identifier with a slash: the fallback file would go to a
    directory below the one the call has created, and the write fails. *)
Example fallback_below_a_missing_directory :
  let r := TCIAClient.download_series E_five_series "a/b" ["data"] (fresh_world 0) in
  fst r = Raised FileNotFoundError /\
  mkdirs_of (trace (snd r)) = [["data"; "a"; "b"]] /\
  writes_of (trace (snd r)) = [] /\
  fst (TCIAClient.download_series E_five_series "../x" ["data"] (fresh_world 0))
    = Returned [["data"; ".."; "x"; ".."; "x.dcm"]].
Proof. vm_compute. repeat split. Qed.

(** An archive member named after the directory above: its base name is
    [..], which names a directory, and the write fails; the run counts the
    series as failed and goes on. *)
Example member_named_after_the_parent :
  let r := TCIAClient.download_series E_parent_member "1.2.840" ["data"] (fresh_world 0) in
  fst r = Raised IsADirectoryError /\
  writes_of (trace (snd r)) = [] /\
  fst (Bootstrap.run_download E_parent_member 5 ["data"]
         [ {[ "SeriesInstanceUID" := "1.2.840" ]} ] (fresh_world 0))
    = Raised (SystemExit 1).
Proof. vm_compute. repeat split. Qed.

(** An archive member without a base name: the target is the directory of
    the series itself, which the call has just made, and the write fails;
    the error is not one the call tries again after. *)
Example member_without_a_base_name :
  let r := TCIAClient.download_series E_dot_member "1.2.840" ["data"] (fresh_world 0) in
  fst r = Raised IsADirectoryError /\
  writes_of (trace (snd r)) = [] /\
  fs (snd r) = ∅ /\
  requests_of (trace (snd r)) = [GetImage "1.2.840"].
Proof. vm_compute. repeat split. Qed.

(** A metadata query that is redirected once: the client follows, and the
    query returns what the second reply holds after two requests and one
    call. *)
Example metadata_query_follows_a_redirect :
  let r := TCIAClient.get_series E_moved "LIDC-IDRI" (fresh_world 0) in
  fst r = Returned five_series /\
  nreq (snd r) = 2 /\
  trace (snd r) = [EvRequest (GetSeries "LIDC-IDRI")].
Proof. vm_compute. repeat split. Qed.
